(** * csv_to_github_project: a shallow embedding and its properties

    The program reads the rows of a CSV file and, for each of them, creates an
    issue (or a draft issue) on a GitHub Project (v2) through the GraphQL
    endpoint, then sets the project's custom fields from the extra columns.

    The embedding follows [csv_to_github_project.py] function by function.
    Python values that travel through JSON are kept untyped ([value]), with the
    dynamic errors of the operations the script applies to them; the script is
    a sequence of remote calls and prints, which a state-and-exception monad
    [M] records in a log of events. *)

From Stdlib Require Import ZArith String Ascii List Floats.PrimFloat Uint63.
From stdpp Require Import base option list gmap strings sorting pretty.

Local Open Scope Z_scope.
Local Open Scope string_scope.
Local Open Scope list_scope.
Local Set Warnings "-register-all,-clear-no-such-hyp".

(** ** Python values *)

(** What [r.json()] returns and what is sent as [variables]: [None], booleans,
    integers, floats (IEEE binary64), strings, lists, and dicts with string
    keys (the items in order, keys distinct). *)
Inductive value : Type :=
| PyNone
| PyBool (b : bool)
| PyInt (n : Z)
| PyFloat (x : float)
| PyStr (s : string)
| PyList (items : list value)
| PyDict (items : list (string * value)).

(** [bool(v)]: the truth value Python's [if], [not] and [or] test. *)
Definition truthy (v : value) : bool :=
  match v with
  | PyNone => false
  | PyBool b => b
  | PyInt n => negb (Z.eqb n 0)
  | PyFloat x => negb (PrimFloat.eqb x 0%float)
  | PyStr s => negb (String.eqb s "")
  | PyList items => match items with [] => false | _ => true end
  | PyDict items => match items with [] => false | _ => true end
  end.

(** [a or b] *)
Definition py_or (a b : value) : value := if truthy a then a else b.

(** The text of a [RuntimeError], kept as the format and its arguments:
    - [GraphQL_HTTP status text]: f"GraphQL HTTP {r.status_code}: {r.text}"
    - [GraphQL_errors errors]: f"GraphQL errors: {data['errors']}"
    - [Project_not_found number owner]: f"Nu am gasit Project #{number} la '{owner}' ..."
    - [Repository_not_found repo_full]: f"Repository-ul {repo_full} nu exista ..." *)
Inductive error_message : Type :=
| GraphQL_HTTP (status : Z) (text : string)
| GraphQL_errors (errors : value)
| Project_not_found (number : Z) (owner : string)
| Repository_not_found (repo_full : string).

(** The exceptions the script can meet. [RequestException] stands for a failure
    of [requests.post] itself (a request sent, no response),
    [InvalidJSONError] for its refusal of a payload that JSON cannot hold,
    [JSONDecodeError] for [r.json()] on a body that is not JSON; [ValueError]
    is also what unpacking too few values raises, and with [OverflowError]
    what [time.sleep] can raise. [SystemExit] is not an [Exception]. *)
Inductive exn : Type :=
| RuntimeError (msg : error_message)
| KeyError (key : string)
| TypeError
| AttributeError
| ValueError
| OverflowError
| RequestException
| InvalidJSONError
| JSONDecodeError
| SystemExit (code : Z).

(** [except RuntimeError] *)
Definition is_RuntimeError (e : exn) : bool :=
  match e with RuntimeError _ => true | _ => false end.

(** [except Exception] *)
Definition is_Exception (e : exn) : bool :=
  match e with SystemExit _ => false | _ => true end.

Inductive result (A : Type) : Type :=
| Ok (a : A)
| Raise (e : exn).
Arguments Ok {A} a.
Arguments Raise {A} e.

#[global] Instance result_ret : MRet result := @Ok.
#[global] Instance result_bind : MBind result :=
  λ A B k r, match r with Ok a => k a | Raise e => Raise e end.

(** [v == s] for a string literal [s]: only an equal string is equal. *)
Definition eq_str (v : value) (s : string) : bool :=
  match v with
  | PyStr s' => String.eqb s' s
  | _ => false
  end.

(** Lookup of a key among the items of a dict. *)
Fixpoint assoc {A : Type} (k : string) (items : list (string * A)) : option A :=
  match items with
  | [] => None
  | (k', v) :: rest => if String.eqb k k' then Some v else assoc k rest
  end.

(** [v.get(k, dflt)]: only a dict has the method. *)
Definition dict_get_default (v : value) (k : string) (dflt : value) : result value :=
  match v with
  | PyDict items => Ok (default dflt (assoc k items))
  | _ => Raise AttributeError
  end.

(** [v.get(k)] *)
Definition dict_get (v : value) (k : string) : result value :=
  dict_get_default v k PyNone.

(** [v[k]] with [k] a string: a missing key of a dict is a [KeyError]; a list
    or a string wants an integer index, and the other values have no
    subscript: [TypeError]. *)
Definition getitem (v : value) (k : string) : result value :=
  match v with
  | PyDict items =>
      match assoc k items with
      | Some x => Ok x
      | None => Raise (KeyError k)
      end
  | _ => Raise TypeError
  end.

(** [p in s] on strings: [p] occurs in [s]. *)
Fixpoint occurs_in (p s : string) : bool :=
  String.prefix p s ||
  match s with
  | EmptyString => false
  | String _ s' => occurs_in p s'
  end.

(** [k in v] with [k] a string: a key of a dict, an element of a list, a
    substring of a string; the other values are not containers. *)
Definition contains (k : string) (v : value) : result bool :=
  match v with
  | PyDict items => Ok (bool_decide (is_Some (assoc k items)))
  | PyList items =>
      Ok (existsb (λ x, match x with PyStr s => String.eqb s k | _ => false end) items)
  | PyStr s => Ok (occurs_in k s)
  | _ => Raise TypeError
  end.

(** [for x in v]: the elements of a list, the keys of a dict, the characters
    of a string; the other values are not iterable. *)
Definition iterate (v : value) : result (list value) :=
  match v with
  | PyList items => Ok items
  | PyDict items => Ok (map (λ kv, PyStr (fst kv)) items)
  | PyStr s => Ok (map (λ c, PyStr (String c EmptyString)) (list_ascii_of_string s))
  | _ => Raise TypeError
  end.

(** ** Strings *)

(** [str.lower], [str.strip], [float] and the argument check of [time.sleep]
    are Python's own (Unicode case mapping, Unicode white space, the float
    grammar, the range of a time value): the development is parametric in
    them. [float_of_str s = None] is [float(s)] raising [ValueError];
    [sleep_rejects secs = Some e] is [time.sleep(secs)] raising [e]. *)
Class Builtins : Type := {
  str_lower : string → string;
  str_strip : string → string;
  float_of_str : string → option float;
  sleep_rejects : float → option exn;
}.

(** [s.split(sep)] for a one-character separator. *)
Fixpoint split_on (sep : ascii) (s : string) : list string :=
  match s with
  | EmptyString => [EmptyString]
  | String c s' =>
      if Ascii.eqb c sep then EmptyString :: split_on sep s'
      else match split_on sep s' with
           | [] => [String c EmptyString]
           | x :: xs => String c x :: xs
           end
  end.

(** [s.split(sep, 1)]: the text before the first separator and the text after
    it, or the whole text alone when there is no separator. *)
Fixpoint split_once (sep : ascii) (s : string) : string * option string :=
  match s with
  | EmptyString => (EmptyString, None)
  | String c s' =>
      if Ascii.eqb c sep then (EmptyString, Some s')
      else let '(a, b) := split_once sep s' in (String c a, b)
  end.

(** [s.lstrip("@")] *)
Fixpoint lstrip_at (s : string) : string :=
  match s with
  | String "@" s' => lstrip_at s'
  | _ => s
  end.

(** [sorted] on strings: code-point order, which is byte order on UTF-8. *)
Definition sorted (l : list string) : list string :=
  merge_sort (λ a b, Is_true (String.leb a b)) l.

(** ** Remote calls, prints and the log *)

(** The GraphQL documents, named after the variables that hold their text:
    [q_user] and [q_org] of [get_project_and_fields], [q] of [get_repo_id],
    [get_label_ids] and [get_user_ids], [m] of [create_issue],
    [add_item_to_project], [update_field] and [create_draft_issue_and_item]. *)
Inductive document : Type :=
| q_user
| q_org
| q_repository
| q_labels
| q_login
| m_createIssue
| m_addProjectV2ItemById
| m_updateProjectV2ItemFieldValue
| m_addProjectV2DraftIssue.

(** The response [requests.post] returns: [json] is [r.json()], [None] when
    the body is not JSON. *)
Record response : Type := {
  status_code : Z;
  text : string;
  json : option value;
}.

(** A call of [requests.post] sends the request and fails (no response) or
    returns a response, or it refuses the payload and sends nothing. *)
Inductive outcome : Type :=
| Failed
| Responded (r : response)
| Refused.

(** The lines the script prints, kept as the format and its arguments. *)
Inductive line : Type :=
| Info_project_found (where_ : string)
| Warn_labels_missing (names : list string)
| Warn_user_missing (login : string)
| Issue_created (number url : value)
| Warn_number_ignored (v : string)
| Warn_select_without_options
| Warn_select_unknown_option (v : string)
| Info_type_unsupported (data_type : value)
| Err_token_missing
| Err_repo_missing
| Err_title_missing (i : Z)
| Draft_created (item_id : value)
| Item_added (item_id : value)
| Warn_field_not_set (col_name : string) (col_val : option string) (e : exn).

(** What a run does, in order: a call of [requests.post] on the endpoint with
    the outcome it had, a line on standard output, a line on the diagnostic
    stream, a pause. *)
Inductive event : Type :=
| Post (token : string) (query : document) (variables : value) (o : outcome)
| Stdout (l : line)
| Stderr (l : line)
| Sleep (secs : float).

(** The remote service: its answer to a request that reaches it, [None] when
    no response comes back, may depend on everything that happened before. *)
Class Remote : Type := {
  respond : list event → string → document → value → option response;
}.

(** [json.dumps(v, allow_nan=False)] succeeds: no float in [v] is an infinity
    or a NaN. The other values of [value] all have a JSON text. *)
Fixpoint serialisable (v : value) : bool :=
  match v with
  | PyFloat x => PrimFloat.is_finite x
  | PyList items => forallb serialisable items
  | PyDict items => forallb (λ kv, serialisable kv.2) items
  | _ => true
  end.

(** [requests.post(GQL_ENDPOINT, json={"query": query, "variables": variables},
    ...)]: the library serialises the payload with [allow_nan=False] while it
    prepares the request, and raises [InvalidJSONError] before anything is
    sent when that fails; the query is a string, so this is decided by the
    variables. A request that is sent gets the answer of the service. *)
Definition requests_post {remote : Remote} (w : list event) (token : string)
    (query : document) (variables : value) : outcome :=
  if serialisable variables then
    match respond w token query variables with
    | Some r => Responded r
    | None => Failed
    end
  else Refused.

(** A computation reads the log so far and returns a value or raises, with
    the log extended by what it did. *)
Definition M (A : Type) : Type := list event → result A * list event.

Definition ret {A : Type} (a : A) : M A := λ w, (Ok a, w).

Definition bind {A B : Type} (m : M A) (k : A → M B) : M B :=
  λ w, match m w with
       | (Ok a, w') => k a w'
       | (Raise e, w') => (Raise e, w')
       end.

#[global] Instance M_ret : MRet M := @ret.
#[global] Instance M_bind : MBind M := λ A B k m, bind m k.

Definition raise {A : Type} (e : exn) : M A := λ w, (Raise e, w).

(** A pure operation that can raise. *)
Definition lift {A : Type} (r : result A) : M A := λ w, (r, w).

Definition emit (e : event) : M unit := λ w, (Ok tt, w ++ [e]).

(** [print(l)] and [print(l, file=sys.stderr)] *)
Definition print (l : line) : M unit := emit (Stdout l).
Definition print_err (l : line) : M unit := emit (Stderr l).

(** [try: m  except <catches> as e: handler e] *)
Definition try_except {A : Type} (m : M A) (catches : exn → bool) (handler : exn → M A) : M A :=
  λ w, match m w with
       | (Raise e, w') => if catches e then handler e w' else (Raise e, w')
       | r => r
       end.

(** A [for] loop that threads a state through its body. *)
Fixpoint for_fold {A S : Type} (xs : list A) (body : A → S → M S) (s : S) : M S :=
  match xs with
  | [] => ret s
  | x :: rest => s' ← body x s; for_fold rest body s'
  end.

(** A [for] loop whose body only acts. *)
Fixpoint for_each {A : Type} (xs : list A) (body : A → M unit) : M unit :=
  match xs with
  | [] => ret tt
  | x :: rest => body x;; for_each rest body
  end.

(** [next((x for x in xs if test x), None)]: the first element that passes
    the test; the test itself can raise, on the element it is looking at. *)
Fixpoint next_match (test : value → result bool) (xs : list value) : result value :=
  match xs with
  | [] => Ok PyNone
  | x :: rest =>
      match test x with
      | Ok true => Ok x
      | Ok false => next_match test rest
      | Raise e => Raise e
      end
  end.

(** [o["name"].lower() == v.lower()], the test of both label and option
    matching: the name must be a string to have [lower]. *)
Definition name_matches {builtins : Builtins} (v : string) (o : value) : result bool :=
  match getitem o "name" with
  | Ok (PyStr n) => Ok (bool_decide (str_lower n = str_lower v))
  | Ok _ => Raise AttributeError
  | Raise e => Raise e
  end.

Section Program.
Context {builtins : Builtins} {remote : Remote}.

(** [r = requests.post(GQL_ENDPOINT, json={"query": query, "variables":
    variables}, headers={"Authorization": f"Bearer {token}", ...}, timeout=60)]:
    the call is logged with its outcome; it returns the response, or raises
    what the library raises. *)
Definition post (token : string) (query : document) (variables : value) : M response :=
  λ w, let o := requests_post w token query variables in
       (match o with
        | Failed => Raise RequestException
        | Responded r => Ok r
        | Refused => Raise InvalidJSONError
        end, w ++ [Post token query variables o]).

Definition gql (token : string) (query : document) (variables : value) : M value :=
  r ← post token query variables;
  if negb (Z.eqb (status_code r) 200) then
    raise (RuntimeError (GraphQL_HTTP (status_code r) (text r)))
  else
    data ← lift (match json r with Some d => Ok d | None => Raise JSONDecodeError end);
    has_errors ← lift (contains "errors" data);
    if has_errors : bool then
      errors ← lift (getitem data "errors");
      raise (RuntimeError (GraphQL_errors errors))
    else
      lift (getitem data "data").

(** *** The project and its fields *)

(** A field as [get_project_and_fields] records it: the dict with the keys
    "id", "name" and "dataType", and "options" for a single-select node. *)
Record field : Type := {
  field_id : value;
  field_name : value;
  dataType : value;
  options : option value;
}.

(** [(d.get(kind) or {}).get("projectV2")] *)
Definition projectV2_of (d : value) (kind : string) : result value :=
  owner ← dict_get d kind;
  dict_get (py_or owner (PyDict [])) "projectV2".

(** [field_by_name[k] = f]. The map holds the entries under string keys,
    the only ones a column name can look up. A list or a dict is not
    hashable; another value that is not a string is stored by Python under
    a key that no string equals, which leaves the string entries as they
    are. *)
Definition setitem (field_by_name : gmap string field) (k : value) (f : field) :
    result (gmap string field) :=
  match k with
  | PyStr s => Ok (<[s := f]> field_by_name)
  | PyList _ | PyDict _ => Raise TypeError
  | _ => Ok field_by_name
  end.

(** The dict built for a node: its "id", "name" and "dataType", and its
    "options" when the node is a single-select one. *)
Definition node_field (node : value) : result field :=
  id ← dict_get node "id";
  name ← dict_get node "name";
  data_type ← dict_get node "dataType";
  typename ← dict_get node "__typename";
  opts ← (if eq_str typename "ProjectV2SingleSelectField" then
            o ← dict_get_default node "options" (PyList []);
            Ok (Some (py_or o (PyList [])))
          else Ok None);
  Ok {| field_id := id; field_name := name; dataType := data_type; options := opts |}.

(** The body of the loop over [proj["fields"]["nodes"]]. *)
Definition add_node (node : value) (field_by_name : gmap string field) :
    result (gmap string field) :=
  if negb (truthy node) then Ok field_by_name
  else
    name ← dict_get node "name";
    if negb (truthy name) then Ok field_by_name
    else
      f ← node_field node;
      setitem field_by_name (field_name f) f.

Fixpoint add_nodes (nodes : list value) (field_by_name : gmap string field) :
    result (gmap string field) :=
  match nodes with
  | [] => Ok field_by_name
  | node :: rest =>
      field_by_name' ← add_node node field_by_name;
      add_nodes rest field_by_name'
  end.

(** What [get_project_and_fields] returns: the dict with "id" and "fields". *)
Record project : Type := {
  project_id : value;
  fields : gmap string field;
}.

(** [proj["fields"]["nodes"]], the field list as returned. *)
Definition field_nodes (proj : value) : result (list value) :=
  flds ← getitem proj "fields";
  nodes ← getitem flds "nodes";
  iterate nodes.

(** The end of [get_project_and_fields], from the board found: the map of
    its fields by name, and its "id". *)
Definition project_of (proj : value) : result project :=
  nodes ← field_nodes proj;
  field_by_name ← add_nodes nodes ∅;
  id ← getitem proj "id";
  Ok {| project_id := id; fields := field_by_name |}.

Definition owner_variables (owner : string) (number : Z) : value :=
  PyDict [("owner", PyStr owner); ("number", PyInt number)].

(** The [try] block of the first lookup, with its [except RuntimeError]. *)
Definition lookup_user (token owner : string) (number : Z) : M value :=
  try_except
    (d ← gql token q_user (owner_variables owner number);
     lift (projectV2_of d "user"))
    is_RuntimeError
    (λ _, ret PyNone).

(** The second lookup, under [if not proj]. *)
Definition lookup_org (token owner : string) (number : Z) : M value :=
  d ← gql token q_org (owner_variables owner number);
  lift (projectV2_of d "organization").

Definition get_project_and_fields (token owner : string) (number : Z) : M project :=
  user_proj ← lookup_user token owner number;
  '(proj, where_) ← (if negb (truthy user_proj) then
                       proj ← lookup_org token owner number;
                       ret (proj, "org")
                     else ret (user_proj, "user"));
  if negb (truthy proj) then
    raise (RuntimeError (Project_not_found number owner))
  else
    print (Info_project_found where_);;
    lift (project_of proj).

(** *** Repository, labels, users *)

(** [owner, name = repo_full.split("/", 1)]: without a slash there is one
    part only and the unpacking raises [ValueError]. *)
Definition split_repo (repo_full : string) : result (string * string) :=
  match split_once "/" repo_full with
  | (owner, Some name) => Ok (owner, name)
  | (_, None) => Raise ValueError
  end.

Definition get_repo_id (token repo_full : string) : M value :=
  '(owner, name) ← lift (split_repo repo_full);
  d ← gql token q_repository (PyDict [("owner", PyStr owner); ("name", PyStr name)]);
  repo ← lift (getitem d "repository");
  if negb (truthy repo) then
    raise (RuntimeError (Repository_not_found repo_full))
  else
    lift (getitem repo "id").

(** [{x.strip() for x in names if x.strip()}] *)
Definition stripped_set (names : list string) : gset string :=
  list_to_set (filter (λ s, s ≠ "") (map str_strip names)).

Definition labels_variables (owner name ln : string) : value :=
  PyDict [("owner", PyStr owner); ("name", PyStr name); ("query", PyStr ln)].

(** [d["repository"]["labels"]["nodes"]], the candidates of one query. *)
Definition label_nodes (d : value) : result (list value) :=
  repository ← getitem d "repository";
  labels ← getitem repository "labels";
  nodes ← getitem labels "nodes";
  iterate nodes.

(** The body of the loop of [get_label_ids], on the pair of [ids] and
    [remaining]. *)
Definition label_step (token owner name ln : string) (st : list value * gset string) :
    M (list value * gset string) :=
  d ← gql token q_labels (labels_variables owner name ln);
  match_ ← lift (nodes ← label_nodes d; next_match (name_matches ln) nodes);
  if truthy match_ then
    id ← lift (getitem match_ "id");
    ret (st.1 ++ [id], st.2 ∖ {[ln]})
  else ret st.

(** [for ln in list(remaining)] visits the set in Python's order, [elements]
    in stdpp's: some order without repeats in both, and nothing below depends
    on which. *)
Definition get_label_ids (token repo_full : string) (label_names : list string) :
    M (list value) :=
  match label_names with
  | [] => ret []
  | _ =>
      '(owner, name) ← lift (split_repo repo_full);
      let remaining := stripped_set label_names in
      '(ids, remaining) ← for_fold (elements remaining) (label_step token owner name)
                                   ([], remaining);
      (if bool_decide (remaining ≠ ∅) then
         print_err (Warn_labels_missing (sorted (elements remaining)))
       else ret tt);;
      ret ids
  end.

Definition user_step (token lg : string) (ids : list value) : M (list value) :=
  d ← gql token q_login (PyDict [("login", PyStr lg)]);
  u ← lift (dict_get d "user");
  if truthy u then
    id ← lift (getitem u "id");
    ret (ids ++ [id])
  else
    print_err (Warn_user_missing lg);;
    ret ids.

Definition get_user_ids (token : string) (logins : list string) : M (list value) :=
  match logins with
  | [] => ret []
  | _ => for_fold (elements (stripped_set logins)) (user_step token) []
  end.

(** *** Creating items *)

(** [s or ""] on a string *)
Definition str_or_empty (s : string) : string :=
  if String.eqb s "" then "" else s.

(** [ids or None] on a list *)
Definition list_or_None (ids : list value) : value :=
  match ids with
  | [] => PyNone
  | _ => PyList ids
  end.

Definition create_issue (token : string) (repo_id : value) (title body : string)
    (label_ids assignee_ids : list value) : M value :=
  d ← gql token m_createIssue
        (PyDict [("input", PyDict [("repositoryId", repo_id);
                                   ("title", PyStr title);
                                   ("body", PyStr (str_or_empty body));
                                   ("labelIds", list_or_None label_ids);
                                   ("assigneeIds", list_or_None assignee_ids)])]);
  issue ← lift (c ← getitem d "createIssue"; getitem c "issue");
  number ← lift (getitem issue "number");
  url ← lift (getitem issue "url");
  print (Issue_created number url);;
  lift (getitem issue "id").

Definition add_item_to_project (token : string) (project_id content_id : value) : M value :=
  d ← gql token m_addProjectV2ItemById
        (PyDict [("projectId", project_id); ("contentId", content_id)]);
  lift (a ← getitem d "addProjectV2ItemById"; item ← getitem a "item"; getitem item "id").

Definition create_draft_issue_and_item (token : string) (project_id : value)
    (title body : string) (assignee_ids : list value) : M value :=
  d ← gql token m_addProjectV2DraftIssue
        (PyDict [("input", PyDict [("projectId", project_id);
                                   ("title", PyStr title);
                                   ("body", PyStr (str_or_empty body));
                                   ("assigneeIds", list_or_None assignee_ids)])]);
  lift (a ← getitem d "addProjectV2DraftIssue"; item ← getitem a "projectItem";
        getitem item "id").

(** *** Setting a field *)

(** The mutation at the end of [update_field]; its result is dropped. *)
Definition submit_value (token : string) (project_id item_id field_id val : value) : M unit :=
  gql token m_updateProjectV2ItemFieldValue
    (PyDict [("input", PyDict [("projectId", project_id);
                               ("itemId", item_id);
                               ("fieldId", field_id);
                               ("value", val)])]);;
  ret tt.

(** [options] is [PyNone] for the default [None]. *)
Definition update_field (token : string) (project_id item_id field_id data_type : value)
    (v : string) (options : value) : M unit :=
  if eq_str data_type "TEXT" then
    submit_value token project_id item_id field_id (PyDict [("text", PyStr v)])
  else if eq_str data_type "NUMBER" then
    match float_of_str v with
    | None => print_err (Warn_number_ignored v)
    | Some num =>
        submit_value token project_id item_id field_id (PyDict [("number", PyFloat num)])
    end
  else if eq_str data_type "DATE" then
    submit_value token project_id item_id field_id (PyDict [("date", PyStr v)])
  else if eq_str data_type "SINGLE_SELECT" then
    if negb (truthy options) then print_err Warn_select_without_options
    else
      opt ← lift (xs ← iterate options; next_match (name_matches v) xs);
      if negb (truthy opt) then print_err (Warn_select_unknown_option v)
      else
        id ← lift (getitem opt "id");
        submit_value token project_id item_id field_id
          (PyDict [("singleSelectOptionId", id)])
  else print_err (Info_type_unsupported data_type).

(** *** The rows *)

(** A row of [csv.DictReader]: the columns in header order (a dict: the names
    are distinct), each with its cell, [None] for a cell the line is too
    short to have. The cells a line has beyond the header, which the reader
    keeps as a list under the key [None], are left out: that key is no
    reserved name and no field name, and the loop over the columns passes
    it by. *)
Definition row : Type := list (string * option string).

(** [row.get(k)] *)
Definition row_get (r : row) (k : string) : option string :=
  match assoc k r with
  | Some cell => cell
  | None => None
  end.

(** [a or b] on what [row.get] returns: [None] and the empty string are
    false. *)
Definition cell_or (a b : option string) : option string :=
  match a with
  | Some s => if String.eqb s "" then b else a
  | None => b
  end.

(** [a or ""], a string in every case. *)
Definition cell_or_empty (a : option string) : string :=
  match a with
  | Some s => s
  | None => ""
  end.

(** [[x.strip() for x in raw.split(",")] if raw else []] *)
Definition split_names (raw : string) : list string :=
  if String.eqb raw "" then [] else map str_strip (split_on "," raw).

(** The reserved column names of the field loop. *)
Definition reserved (col_name : string) : bool :=
  bool_decide (col_name ∈ ["Title"; "title"; "Body"; "body";
                           "Labels"; "labels"; "Assignees"; "assignees"]).

(** The body of the loop over [row.items()]: one column of the row. A
    recorded field is a dict with three keys or four, never a false value,
    so [if not field] passes exactly when the column names no field. *)
Definition set_column (token : string) (project_id item_id : value)
    (project_fields : gmap string field) (col : string * option string) : M unit :=
  let '(col_name, col_val) := col in
  if reserved col_name then ret tt
  else
    match col_val with
    | None => ret tt
    | Some s =>
        if String.eqb (str_strip s) "" then ret tt
        else
          match project_fields !! col_name with
          | None => ret tt
          | Some f =>
              let opts :=
                if eq_str (dataType f) "SINGLE_SELECT" then
                  py_or (default PyNone (options f)) (PyList [])
                else PyNone in
              try_except
                (update_field token project_id item_id (field_id f) (dataType f)
                   (str_strip s) opts)
                is_Exception
                (λ e, print_err (Warn_field_not_set col_name col_val e))
          end
    end.

(** [time.sleep(secs)] *)
Definition time_sleep (secs : float) : M unit :=
  match sleep_rejects secs with
  | Some e => raise e
  | None => emit (Sleep secs)
  end.

(** [row.get("Title") or row.get("title")] *)
Definition row_title (r : row) : option string :=
  cell_or (row_get r "Title") (row_get r "title").

(** [row.get("Body") or row.get("body") or ""] *)
Definition row_body (r : row) : string :=
  cell_or_empty (cell_or (cell_or (row_get r "Body") (row_get r "body")) (Some "")).

(** [labels], from [row.get("Labels") or row.get("labels") or ""] *)
Definition row_labels (r : row) : list string :=
  split_names
    (cell_or_empty (cell_or (cell_or (row_get r "Labels") (row_get r "labels")) (Some ""))).

(** [assignees], from [row.get("Assignees") or row.get("assignees") or ""],
    each login without its leading "@". *)
Definition row_assignees (r : row) : list string :=
  map lstrip_at
    (split_names
       (cell_or_empty
          (cell_or (cell_or (row_get r "Assignees") (row_get r "assignees")) (Some "")))).

(** The branch on [args.draft]: the item of the row, created one way or the
    other. [repo] is [args.repo], which [main] has checked in tracked mode
    and which draft mode does not read. *)
Definition create_item (token : string) (project_id : value) (is_draft : bool)
    (repo : string) (repo_id : value) (title body : string) (labels : list string)
    (assignee_ids : list value) : M value :=
  if is_draft then
    item_id ← create_draft_issue_and_item token project_id title body assignee_ids;
    print (Draft_created item_id);;
    ret item_id
  else
    label_ids ← get_label_ids token repo labels;
    issue_id ← create_issue token repo_id title body label_ids assignee_ids;
    item_id ← add_item_to_project token project_id issue_id;
    print (Item_added item_id);;
    ret item_id.

(** The body of the loop over the rows: row number [i] of the file. A row
    without a title is reported and left ([continue]). *)
Definition process_row (token : string) (p : project) (is_draft : bool) (repo : string)
    (repo_id : value) (rate_sleep : float) (i : Z) (r : row) : M unit :=
  if String.eqb (cell_or_empty (row_title r)) "" then
    print_err (Err_title_missing i)
  else
    assignee_ids ← get_user_ids token (row_assignees r);
    item_id ← create_item token (project_id p) is_draft repo repo_id
                (cell_or_empty (row_title r)) (row_body r) (row_labels r) assignee_ids;
    for_each r (set_column token (project_id p) item_id (fields p));;
    time_sleep rate_sleep.

(** [enumerate(rows, start=i)] *)
Fixpoint enumerate {A : Type} (i : Z) (rows : list A) : list (Z * A) :=
  match rows with
  | [] => []
  | r :: rest => (i, r) :: enumerate (i + 1) rest
  end.

(** The command line as [argparse] returns it, with the environment variable
    [GITHUB_TOKEN] and, in place of the path and the delimiter, the rows
    [csv.DictReader] reads from the file. *)
Record args : Type := {
  arg_token : option string;
  env_GITHUB_TOKEN : option string;
  project_owner : string;
  project_number : Z;
  csv_rows : list row;
  arg_repo : option string;
  draft : bool;
  rate_sleep : float;
}.

(** [token = args.token or os.getenv("GITHUB_TOKEN")] *)
Definition token_of (a : args) : string :=
  cell_or_empty (cell_or (arg_token a) (env_GITHUB_TOKEN a)).

(** [repo_id]: [None] in draft mode, the identifier of [args.repo] otherwise,
    which must be given. *)
Definition resolve_repo (a : args) : M value :=
  if negb (draft a) then
    if String.eqb (cell_or_empty (arg_repo a)) "" then
      print_err Err_repo_missing;;
      raise (SystemExit 1)
    else get_repo_id (token_of a) (cell_or_empty (arg_repo a))
  else ret PyNone.

(** The loop over the rows of the file. *)
Definition process_rows (a : args) (p : project) (repo_id : value) (i : Z)
    (rows : list row) : M unit :=
  for_each (enumerate i rows)
    (λ ir, process_row (token_of a) p (draft a) (cell_or_empty (arg_repo a)) repo_id
             (rate_sleep a) ir.1 ir.2).

Definition main (a : args) : M unit :=
  if String.eqb (token_of a) "" then
    print_err Err_token_missing;;
    raise (SystemExit 1)
  else
    p ← get_project_and_fields (token_of a) (project_owner a) (project_number a);
    repo_id ← resolve_repo a;
    process_rows a p repo_id 1 (csv_rows a).

End Program.

(** ** What a call returns, read off the outcome of its POST *)

(** The value [gql] returns, or the exception it raises, for the outcome of
    its POST. *)
Definition payload_of (o : outcome) : result value :=
  match o with
  | Failed => Raise RequestException
  | Refused => Raise InvalidJSONError
  | Responded r =>
      if negb (Z.eqb (status_code r) 200) then
        Raise (RuntimeError (GraphQL_HTTP (status_code r) (text r)))
      else
        data ← (match json r with Some d => Ok d | None => Raise JSONDecodeError end);
        has_errors ← contains "errors" data;
        if has_errors : bool then
          errors ← getitem data "errors";
          Raise (RuntimeError (GraphQL_errors errors))
        else getitem data "data"
  end.

(** The text of the transport error. *)
Definition http_error_text (status : Z) (body : string) : string :=
  "GraphQL HTTP " +:+ pretty status +:+ ": " +:+ body.

(** An option as the query asks for it, [options { id name }]: a dict with a
    string under "name" and an entry under "id". *)
Definition is_option (o : value) (name : string) (id : value) : Prop :=
  ∃ items, o = PyDict items ∧ assoc "name" items = Some (PyStr name) ∧
           assoc "id" items = Some id.

(** Every event a computation adds to the log satisfies [P]. *)
Definition emits {A : Type} (P : event → Prop) (m : M A) : Prop :=
  ∀ w, ∃ evs, snd (m w) = w ++ evs ∧ Forall P evs.

(** A result, or a computation, that raises nothing but an [Exception]. *)
Definition ordinary {A : Type} (r : result A) : Prop :=
  ∀ e, r = Raise e → is_Exception e = true.

Definition raises_ordinary {A : Type} (m : M A) : Prop :=
  ∀ w, ordinary (fst (m w)).

(** A field list the loop accepts: each node is [None] or a dict whose name,
    if it has one, is [None] or a string. *)
Definition plain_node (node : value) : Prop :=
  node = PyNone ∨
  ∃ items, node = PyDict items ∧
           ∀ x, assoc "name" items = Some x → x = PyNone ∨ ∃ s, x = PyStr s.

(** A column the field loop acts on: not a reserved name, a cell that is
    not blank, a name of the field map. *)
Definition is_field_column {builtins : Builtins} (project_fields : gmap string field)
    (col : string * option string) : bool :=
  negb (reserved col.1) &&
  match col.2 with
  | Some s => negb (String.eqb (str_strip s) "")
  | None => false
  end &&
  bool_decide (is_Some (project_fields !! col.1)).

(** The options [main] passes for a field. *)
Definition options_for (f : field) : value :=
  if eq_str (dataType f) "SINGLE_SELECT" then
    py_or (default PyNone (options f)) (PyList [])
  else PyNone.

(** An event that has nothing to do with labels: not a label query, not the
    warning about missing labels, and, for the creation of a draft, an input
    without "labelIds". *)
Definition label_free (ev : event) : Prop :=
  match ev with
  | Post _ q_labels _ _ => False
  | Post _ m_addProjectV2DraftIssue variables _ =>
      (input ← getitem variables "input"; contains "labelIds" input) = Ok false
  | Stderr (Warn_labels_missing _) => False
  | _ => True
  end.

(** Two rows with the same columns and the same cells, the cells of the
    columns "Labels" and "labels" apart. *)
Definition same_but_labels (r r' : row) : Prop :=
  Forall2 (λ c c', c.1 = c'.1 ∧ (c.1 ≠ "Labels" → c.1 ≠ "labels" → c.2 = c'.2)) r r'.








(** ** Reading a run off its log *)

(** An event of a run that uses the credential [token] and the documents
    [docs] only, and pauses only where [pause] allows it. *)
Definition calls (token : string) (docs : document → bool) (pause : bool) (ev : event) :
    Prop :=
  match ev with
  | Post t query _ _ => t = token ∧ docs query = true
  | Sleep _ => pause = true
  | _ => True
  end.

(** The documents of a run in draft mode, and those of a run in tracked
    mode. *)
Definition draft_documents (query : document) : bool :=
  match query with
  | q_user | q_org | q_login | m_addProjectV2DraftIssue
  | m_updateProjectV2ItemFieldValue => true
  | _ => false
  end.

Definition tracked_documents (query : document) : bool :=
  match query with
  | m_addProjectV2DraftIssue => false
  | _ => true
  end.

(** The documents of a row that create nothing: the lookups of users and
    labels, and the setting of a field. *)
Definition side_documents (query : document) : bool :=
  match query with
  | q_login | q_labels | m_updateProjectV2ItemFieldValue => true
  | _ => false
  end.

(** The mutations that create or link an item, among the events, in order. *)
Definition creation_posts (evs : list event) : list document :=
  flat_map (λ ev, match ev with
                  | Post _ m_createIssue _ _ => [m_createIssue]
                  | Post _ m_addProjectV2ItemById _ _ => [m_addProjectV2ItemById]
                  | Post _ m_addProjectV2DraftIssue _ _ => [m_addProjectV2DraftIssue]
                  | _ => []
                  end) evs.

(** The pauses among the events, in order. *)
Definition pauses (evs : list event) : list float :=
  flat_map (λ ev, match ev with Sleep secs => [secs] | _ => [] end) evs.

(** The requests that went out, among the events: the calls of
    [requests.post] that were not refused. *)
Definition issued (evs : list event) : list event :=
  List.filter (λ ev, match ev with
                     | Post _ _ _ Refused => false
                     | Post _ _ _ _ => true
                     | _ => false
                     end) evs.

(** The POSTs among the events. *)
Definition is_post (ev : event) : bool :=
  match ev with Post _ _ _ _ => true | _ => false end.

Definition posts (evs : list event) : list event := List.filter is_post evs.

(** An event of the loop over the columns of a row: a line on the
    diagnostic stream, or the mutation that sets, on the item of the row, a
    field of the board. *)
Definition sets_field (token : string) (project_id item_id : value)
    (project_fields : gmap string field) (ev : event) : Prop :=
  match ev with
  | Post t query variables _ =>
      t = token ∧ query = m_updateProjectV2ItemFieldValue ∧
      ∃ col_name f val,
        project_fields !! col_name = Some f ∧
        variables = PyDict [("input", PyDict [("projectId", project_id);
                                              ("itemId", item_id);
                                              ("fieldId", field_id f);
                                              ("value", val)])]
  | Stderr _ => True
  | _ => False
  end.

(** A row with a title. *)
Definition has_title (r : row) : bool :=
  negb (String.eqb (cell_or_empty (row_title r)) "").




(** [sep.join(parts)] *)
Fixpoint join (sep : string) (parts : list string) : string :=
  match parts with
  | [] => ""
  | [x] => x
  | x :: rest => x +:+ sep +:+ join sep rest
  end.

(** The cell the names of a row are read from:
    [row.get(upper) or row.get(lower) or ""]. *)
Definition names_cell (r : row) (upper lower : string) : string :=
  cell_or_empty (cell_or (cell_or (row_get r upper) (row_get r lower)) (Some "")).

(** ["@" * n] *)
Fixpoint at_signs (n : nat) : string :=
  match n with
  | O => ""
  | S n' => String "@" (at_signs n')
  end.

(** [c in s] for a character. *)
Fixpoint has_char (c : ascii) (s : string) : bool :=
  match s with
  | EmptyString => false
  | String c' s' => Ascii.eqb c' c || has_char c s'
  end.


(** The title-missing reports of [n] rows in a row, the first of number
    [i]. *)
Fixpoint title_reports (i : Z) (n : nat) : list event :=
  match n with
  | O => []
  | S n' => Stderr (Err_title_missing i) :: title_reports (i + 1) n'
  end.

(** ** An instance on ASCII text, to run the definitions on examples *)

Module Examples.

Definition lower_char (c : ascii) : ascii :=
  let n := nat_of_ascii c in
  if ((65 <=? n) && (n <=? 90))%nat then ascii_of_nat (n + 32) else c.

Definition lower (s : string) : string :=
  string_of_list_ascii (map lower_char (list_ascii_of_string s)).

Definition is_space (c : ascii) : bool :=
  let n := nat_of_ascii c in
  ((9 <=? n) && (n <=? 13) || (n =? 32))%nat.

Fixpoint drop_spaces (cs : list ascii) : list ascii :=
  match cs with
  | c :: rest => if is_space c then drop_spaces rest else cs
  | [] => []
  end.

Definition strip (s : string) : string :=
  string_of_list_ascii
    (reverse (drop_spaces (reverse (drop_spaces (list_ascii_of_string s))))).

(** Plain decimal numerals of at most fifteen digits, which a float holds
    exactly, and the names of the infinities and of NaN, in any case;
    [float] accepts more. *)
Fixpoint digits (acc : Z) (cs : list ascii) : option Z :=
  match cs with
  | [] => Some acc
  | c :: rest =>
      let n := Z.of_nat (nat_of_ascii c) in
      if Z.leb 48 n && Z.leb n 57 then digits (10 * acc + (n - 48)) rest else None
  end.

Definition numeral (s : string) : option float :=
  if String.eqb (lower s) "nan" then Some PrimFloat.nan
  else if String.eqb (lower s) "inf" || String.eqb (lower s) "infinity" then
    Some PrimFloat.infinity
  else if String.eqb (lower s) "-inf" || String.eqb (lower s) "-infinity" then
    Some PrimFloat.neg_infinity
  else
    match list_ascii_of_string s with
    | [] => None
    | cs => if Z.ltb 15 (Z.of_nat (length cs)) then None
            else (λ n, PrimFloat.of_uint63 (Uint63.of_Z n)) <$> digits 0 cs
    end.

Definition ascii_builtins : Builtins := {|
  str_lower := lower;
  str_strip := strip;
  float_of_str := numeral;
  sleep_rejects := λ secs, if PrimFloat.ltb secs 0%float then Some ValueError else None;
|}.

(** A response with status 200 and the given JSON body. *)
Definition ok_json (body : value) : outcome :=
  Responded {| status_code := 200; text := ""; json := Some body |}.

(** The answer of a service that responds as [o] says. *)
Definition answer (o : outcome) : option response :=
  match o with
  | Responded r => Some r
  | _ => None
  end.

(** A response with status 200 whose body carries [data] alone. *)
Definition ok_data (data : value) : outcome :=
  ok_json (PyDict [("data", data)]).

(** A service that answers every call with [{"data": {}}]. *)
Definition quiet_service : Remote :=
  {| respond := λ _ _ _ _, answer (ok_data (PyDict [])) |}.

(** The answers of the service for a login that is neither a user nor an
    organization: no data under the owner and a NOT_FOUND entry under
    "errors", for both lookups. *)
Definition not_found : value := PyList [PyDict [("type", PyStr "NOT_FOUND")]].

Definition user_not_found : outcome :=
  ok_json (PyDict [("data", PyDict [("user", PyNone)]); ("errors", not_found)]).

Definition organization_not_found : outcome :=
  ok_json (PyDict [("data", PyDict [("organization", PyNone)]); ("errors", not_found)]).

Definition unknown_owner_service : Remote :=
  {| respond := λ _ _ query _,
       answer match query with
              | q_user => user_not_found
              | q_org => organization_not_found
              | _ => ok_data (PyDict [])
              end |}.

(** A board with two fields named "Status", the second a single-select
    field, a text field "Notes" and a number field "Points". *)
Definition status_text : value :=
  PyDict [("__typename", PyStr "ProjectV2Field"); ("id", PyStr "F1");
          ("name", PyStr "Status"); ("dataType", PyStr "TEXT")].

Definition status_select : value :=
  PyDict [("__typename", PyStr "ProjectV2SingleSelectField"); ("id", PyStr "F2");
          ("name", PyStr "Status"); ("dataType", PyStr "SINGLE_SELECT");
          ("options", PyList [PyDict [("id", PyStr "O1"); ("name", PyStr "Todo")];
                              PyDict [("id", PyStr "O2"); ("name", PyStr "Done")]])].

Definition notes_text : value :=
  PyDict [("__typename", PyStr "ProjectV2Field"); ("id", PyStr "F3");
          ("name", PyStr "Notes"); ("dataType", PyStr "TEXT")].

Definition points_number : value :=
  PyDict [("__typename", PyStr "ProjectV2Field"); ("id", PyStr "F4");
          ("name", PyStr "Points"); ("dataType", PyStr "NUMBER")].

Definition board : value :=
  PyDict [("id", PyStr "P1");
          ("fields",
           PyDict [("nodes", PyList [status_text; notes_text; status_select;
                                     points_number])])].

(** A repository with one label, "Bug": the search for "bug" returns it,
    any other search returns a label of another name. *)
Definition bug_label : value := PyDict [("id", PyStr "L1"); ("name", PyStr "Bug")].
Definition docs_label : value := PyDict [("id", PyStr "L2"); ("name", PyStr "docs")].

Definition labels_found (nodes : list value) : outcome :=
  ok_data (PyDict [("repository", PyDict [("labels", PyDict [("nodes", PyList nodes)])])]).

Definition labels_service : Remote :=
  {| respond := λ _ _ query variables,
       answer match query with
              | q_labels =>
                  if eq_str (default PyNone (match variables with
                                             | PyDict items => assoc "query" items
                                             | _ => None
                                             end)) "bug"
                  then labels_found [docs_label; bug_label]
                  else labels_found [docs_label]
              | _ => ok_data (PyDict [])
              end |}.

(** A service that is down: every call is answered with status 502. *)
Definition down_service : Remote :=
  {| respond := λ _ _ _ _,
       Some {| status_code := 502; text := "Bad Gateway"; json := None |} |}.

(** The options of a "Priority" field. *)
Definition priorities : list value :=
  [PyDict [("id", PyStr "O1"); ("name", PyStr "Low")];
   PyDict [("id", PyStr "O2"); ("name", PyStr "Medium")];
   PyDict [("id", PyStr "O3"); ("name", PyStr "High")]].

(** A board in draft mode: the owner is a user with the board above, and
    a draft is created as item "I1". *)
Definition draft_service : Remote :=
  {| respond := λ _ _ query _,
       answer match query with
              | q_user => ok_data (PyDict [("user", PyDict [("projectV2", board)])])
              | m_addProjectV2DraftIssue =>
                  ok_data (PyDict [("addProjectV2DraftIssue",
                                    PyDict [("projectItem", PyDict [("id", PyStr "I1")])])])
              | _ => ok_data (PyDict [])
              end |}.

(** The same, with the mutation that sets a field failing with 502. *)
Definition failing_update_service : Remote :=
  {| respond := λ w token query variables,
       match query with
       | m_updateProjectV2ItemFieldValue =>
           Some {| status_code := 502; text := "Bad Gateway"; json := None |}
       | _ => respond (Remote := draft_service) w token query variables
       end |}.

(** A repository "o/r" in tracked mode: its identifier is "R1", the issue
    created is "ISSUE1", the item added to the board "I2". *)
Definition tracked_service : Remote :=
  {| respond := λ w token query variables,
       match query with
       | q_repository =>
           answer (ok_data (PyDict [("repository", PyDict [("id", PyStr "R1")])]))
       | q_labels => respond (Remote := labels_service) w token query variables
       | m_createIssue =>
           answer (ok_data (PyDict [("createIssue",
                                     PyDict [("issue", PyDict [("id", PyStr "ISSUE1");
                                                               ("number", PyInt 12);
                                                               ("url", PyStr "https://x/12")])])]))
       | m_addProjectV2ItemById =>
           answer (ok_data (PyDict [("addProjectV2ItemById",
                                     PyDict [("item", PyDict [("id", PyStr "I2")])])]))
       | _ => respond (Remote := draft_service) w token query variables
       end |}.

Definition draft_args (rows : list row) : args :=
  {| arg_token := Some "tok"; env_GITHUB_TOKEN := None;
     project_owner := "me"; project_number := 1; csv_rows := rows;
     arg_repo := None; draft := true; rate_sleep := 0.25%float |}.

(** The tracked service, with one user, "alice": any other login is no
    user. *)
Definition users_service : Remote :=
  {| respond := λ w token query variables,
       match query with
       | q_login =>
           answer (if eq_str (default PyNone (match variables with
                                              | PyDict items => assoc "login" items
                                              | _ => None
                                              end)) "alice"
                   then ok_data (PyDict [("user", PyDict [("id", PyStr "U1");
                                                          ("login", PyStr "alice")])])
                   else ok_data (PyDict [("user", PyNone)]))
       | _ => respond (Remote := tracked_service) w token query variables
       end |}.

(** A command line without a credential, and one in tracked mode. *)
Definition no_token_args : args :=
  {| arg_token := Some ""; env_GITHUB_TOKEN := None;
     project_owner := "me"; project_number := 1; csv_rows := [];
     arg_repo := Some "o/r"; draft := false; rate_sleep := 0.25%float |}.

Definition tracked_args (rows : list row) : args :=
  {| arg_token := None; env_GITHUB_TOKEN := Some "tok";
     project_owner := "me"; project_number := 1; csv_rows := rows;
     arg_repo := Some "o/r"; draft := false; rate_sleep := 0.25%float |}.

(** A board without fields. *)
Definition bare_project : project := {| project_id := PyStr "P1"; fields := ∅ |}.

End Examples.

(** * Properties *)

Section Properties.
Context {builtins : Builtins} {remote : Remote}.

Ltac run :=
  unfold mbind, mret, M_bind, M_ret, bind, ret, raise, lift, emit, print, print_err,
    try_except in *; simpl in *.

(** [gql] does one POST and returns what the outcome of that POST decides. *)
Lemma gql_run token query variables w :
  gql token query variables w =
    (payload_of (requests_post w token query variables),
     w ++ [Post token query variables (requests_post w token query variables)]).
Proof.
  unfold gql, post, payload_of. run.
  destruct (requests_post w token query variables) as [|r|]; [done| |done].
  destruct (negb (Z.eqb (status_code r) 200)); [done|].
  destruct (json r) as [data|]; simpl; [|done].
  destruct (contains "errors" data) as [[]|]; simpl; try done.
  by destruct (getitem data "errors").
Qed.

Lemma append_cons (c : ascii) (a b : string) : String c a +:+ b = String c (a +:+ b).
Proof. reflexivity. Qed.

Lemma append_assoc (a b c : string) : (a +:+ b) +:+ c = a +:+ b +:+ c.
Proof.
  induction a as [|x a IH]; [done|]. by rewrite !append_cons, IH.
Qed.

Lemma append_empty_r (a : string) : a +:+ "" = a.
Proof. induction a as [|x a IH]; [done|]. by rewrite append_cons, IH. Qed.

Lemma prefix_app (p s : string) : String.prefix p (p +:+ s) = true.
Proof.
  induction p as [|c p IH]; [by destruct s|].
  rewrite append_cons. simpl. by destruct (ascii_dec c c).
Qed.

Lemma occurs_in_prefix (p s : string) : String.prefix p s = true → occurs_in p s = true.
Proof. intros E. destruct s; cbn [occurs_in]; by rewrite E. Qed.

Lemma occurs_in_app (a p b : string) : occurs_in p (a +:+ p +:+ b) = true.
Proof.
  induction a as [|c a IH].
  - change (occurs_in p (p +:+ b) = true). apply occurs_in_prefix, prefix_app.
  - rewrite append_cons. cbn [occurs_in]. rewrite IH. apply orb_true_r.
Qed.

(** The text of the transport error shows the status and the raw body. *)
Lemma http_error_text_includes status body :
  occurs_in (pretty status) (http_error_text status body) = true ∧
  occurs_in body (http_error_text status body) = true.
Proof.
  unfold http_error_text. split.
  - apply occurs_in_app.
  - replace ("GraphQL HTTP " +:+ pretty status +:+ ": " +:+ body)
      with (("GraphQL HTTP " +:+ pretty status +:+ ": ") +:+ body +:+ "").
    + apply occurs_in_app.
    + by rewrite !append_assoc, append_empty_r.
Qed.

(** C5. A call of [gql] does exactly one POST (no retry). When the POST is
    answered: with a status other than 200 the call raises the transport
    error, whose message carries the status and the raw body; with status 200
    and an "errors" entry in the body it raises (the application error, made
    of that entry); with status 200 and no "errors" entry it returns the
    "data" entry of the body. So it returns a payload exactly when the status
    is 200 and the body has no "errors" entry (and has the payload). *)
Theorem gql_contract token query variables w :
  snd (gql token query variables w)
    = w ++ [Post token query variables (requests_post w token query variables)] ∧
  ∀ r, requests_post w token query variables = Responded r →
    (status_code r ≠ 200 →
       fst (gql token query variables w)
         = Raise (RuntimeError (GraphQL_HTTP (status_code r) (text r))) ∧
       occurs_in (pretty (status_code r)) (http_error_text (status_code r) (text r)) = true ∧
       occurs_in (text r) (http_error_text (status_code r) (text r)) = true) ∧
    (∀ data, status_code r = 200 → json r = Some data → contains "errors" data = Ok true →
       (∃ e, fst (gql token query variables w) = Raise e) ∧
       (∀ errors, getitem data "errors" = Ok errors →
          fst (gql token query variables w) = Raise (RuntimeError (GraphQL_errors errors)))) ∧
    (∀ data, status_code r = 200 → json r = Some data → contains "errors" data = Ok false →
       fst (gql token query variables w) = getitem data "data") ∧
    (∀ payload, fst (gql token query variables w) = Ok payload ↔
       status_code r = 200 ∧
       ∃ data, json r = Some data ∧ contains "errors" data = Ok false ∧
               getitem data "data" = Ok payload).
Proof.
  rewrite gql_run. split; [done|]. intros r ->. simpl.
  destruct (Z.eqb_spec (status_code r) 200) as [E|E]; simpl.
  - split; [done|]. split; [|split].
    + intros data _ ->. simpl. intros ->. simpl.
      destruct (getitem data "errors") eqn:G; simpl.
      * split; [eauto|]. by intros ? [= ->].
      * split; [eauto|]. done.
    + intros data _ ->. simpl. by intros ->.
    + intros payload. split.
      * intros P. split; [done|]. destruct (json r) as [data|]; [|done].
        exists data. simpl in P. destruct (contains "errors" data) as [[]|]; simpl in P; try done.
        by destruct (getitem data "errors").
      * intros [_ (data & Hj & Hc & Hg)]. rewrite Hj. simpl. by rewrite Hc.
  - split; [|split; [|split]].
    + intros _. split; [done|]. apply http_error_text_includes.
    + by intros.
    + by intros.
    + intros payload. split; [done|]. by intros [? _].
Qed.

(** A call of [requests.post] is refused exactly when its variables cannot
    be serialised; otherwise its outcome is the answer of the service. *)
Lemma requests_post_refused w token query variables :
  requests_post w token query variables = Refused ↔ serialisable variables = false.
Proof.
  unfold requests_post. destruct (serialisable variables); [|done].
  by destruct (respond w token query variables).
Qed.

Lemma requests_post_sent w token query variables :
  serialisable variables = true →
  requests_post w token query variables
    = match respond w token query variables with
      | Some r => Responded r
      | None => Failed
      end.
Proof. unfold requests_post. by intros ->. Qed.

(** The mutation at the end of [update_field] is one call of [requests.post],
    with the value under "value"; it returns when [gql] returns. *)
Lemma submit_value_run token project_id item_id field_id val w :
  submit_value token project_id item_id field_id val w =
    let variables := PyDict [("input", PyDict [("projectId", project_id);
                                               ("itemId", item_id);
                                               ("fieldId", field_id);
                                               ("value", val)])] in
    let o := requests_post w token m_updateProjectV2ItemFieldValue variables in
    (payload_of o ≫= (λ _, Ok tt),
     w ++ [Post token m_updateProjectV2ItemFieldValue variables o]).
Proof. unfold submit_value. run. rewrite gql_run. by destruct (payload_of _). Qed.

(** C2, as the code has it. On a field of kind NUMBER: when [float] accepts
    the text, [update_field] makes exactly one call of [requests.post], for
    the mutation with that number as its value, and returns when [gql]
    returns. If the number is finite (and the identifiers can be serialised,
    as the strings of the service can), the request is sent and answered by
    the service: one mutation is issued, which carries the number. If the
    number is an infinity or a NaN, which [float] accepts just as well, the
    library refuses the payload: nothing is sent and the call raises. When
    [float] rejects the text, the call prints the warning, makes no call of
    [requests.post], and returns without raising. *)
Theorem update_field_number token project_id item_id field_id v opts w :
  (∀ num, float_of_str v = Some num →
     let variables :=
       PyDict [("input", PyDict [("projectId", project_id);
                                 ("itemId", item_id);
                                 ("fieldId", field_id);
                                 ("value", PyDict [("number", PyFloat num)])])] in
     let o := requests_post w token m_updateProjectV2ItemFieldValue variables in
     update_field token project_id item_id field_id (PyStr "NUMBER") v opts w
       = (payload_of o ≫= (λ _, Ok tt),
          w ++ [Post token m_updateProjectV2ItemFieldValue variables o]) ∧
     (PrimFloat.is_finite num = true →
      serialisable project_id = true → serialisable item_id = true →
      serialisable field_id = true →
        o = match respond w token m_updateProjectV2ItemFieldValue variables with
            | Some r => Responded r
            | None => Failed
            end ∧
        issued [Post token m_updateProjectV2ItemFieldValue variables o]
          = [Post token m_updateProjectV2ItemFieldValue variables o]) ∧
     (PrimFloat.is_finite num = false →
        update_field token project_id item_id field_id (PyStr "NUMBER") v opts w
          = (Raise InvalidJSONError,
             w ++ [Post token m_updateProjectV2ItemFieldValue variables Refused]) ∧
        issued [Post token m_updateProjectV2ItemFieldValue variables Refused] = [])) ∧
  (float_of_str v = None →
     update_field token project_id item_id field_id (PyStr "NUMBER") v opts w
       = (Ok tt, w ++ [Stderr (Warn_number_ignored v)])).
Proof.
  unfold update_field. cbn [eq_str String.eqb Ascii.eqb Bool.eqb]. split.
  - intros num ->. cbv zeta. rewrite submit_value_run. cbv zeta.
    split; [done|]. split.
    + intros Hnum Hp Hi Hf. rewrite requests_post_sent.
      * split; [done|]. by destruct (respond _ _ _ _).
      * simpl. by rewrite Hp, Hi, Hf, Hnum.
    + intros Hnum. split; [|done].
      assert (requests_post w token m_updateProjectV2ItemFieldValue
                (PyDict [("input", PyDict [("projectId", project_id);
                                           ("itemId", item_id);
                                           ("fieldId", field_id);
                                           ("value", PyDict [("number", PyFloat num)])])])
              = Refused) as ->; [|done].
      apply requests_post_refused. simpl. rewrite Hnum.
      by rewrite !andb_false_r.
  - by intros ->.
Qed.

Lemma name_matches_option v o name id :
  is_option o name id →
  name_matches v o = Ok (bool_decide (str_lower name = str_lower v)).
Proof. intros (items & -> & Hn & _). unfold name_matches. simpl. by rewrite Hn. Qed.

(** Among well-formed options the search returns the first whose name
    matches; the others before it do not. *)
Lemma next_match_first v pre o name id post :
  Forall (λ x, ∃ n i, is_option x n i ∧ str_lower n ≠ str_lower v) pre →
  is_option o name id → str_lower name = str_lower v →
  next_match (name_matches v) (pre ++ o :: post) = Ok o.
Proof.
  intros Hpre Ho Hm. induction Hpre as [|x pre (n & i & Hx & Hne) _ IH]; simpl.
  - rewrite (name_matches_option _ _ _ _ Ho). by rewrite bool_decide_eq_true_2.
  - rewrite (name_matches_option _ _ _ _ Hx). by rewrite bool_decide_eq_false_2.
Qed.

Lemma next_match_none v xs :
  Forall (λ x, ∃ n i, is_option x n i ∧ str_lower n ≠ str_lower v) xs →
  next_match (name_matches v) xs = Ok PyNone.
Proof.
  induction 1 as [|x xs (n & i & Hx & Hne) _ IH]; simpl; [done|].
  rewrite (name_matches_option _ _ _ _ Hx). by rewrite bool_decide_eq_false_2.
Qed.

Lemma update_field_select token project_id item_id field_id v opts :
  update_field token project_id item_id field_id (PyStr "SINGLE_SELECT") v opts =
    if negb (truthy opts) then print_err Warn_select_without_options
    else
      opt ← lift (xs ← iterate opts; next_match (name_matches v) xs);
      if negb (truthy opt) then print_err (Warn_select_unknown_option v)
      else
        id ← lift (getitem opt "id");
        submit_value token project_id item_id field_id
          (PyDict [("singleSelectOptionId", id)]).
Proof. reflexivity. Qed.

(** C3. On a field of kind SINGLE_SELECT: with no option list, or an empty
    one, the call prints the warning and returns; with a list of options,
    when the text equals the name of an option up to case (and of none
    before it), the call makes exactly one call of [requests.post], for the
    mutation whose value is that option's identifier, and returns when [gql]
    returns; the request is sent unless an identifier cannot be serialised
    (the strings of the service can). When the text equals no option's name
    up to case, the call prints the warning and returns. Nothing is raised
    in the two skipped cases, and no call is made. *)
Theorem update_field_single_select token project_id item_id field_id v w :
  (∀ opts, truthy opts = false →
     update_field token project_id item_id field_id (PyStr "SINGLE_SELECT") v opts w
       = (Ok tt, w ++ [Stderr Warn_select_without_options])) ∧
  (∀ pre o name id post,
     Forall (λ x, ∃ n i, is_option x n i ∧ str_lower n ≠ str_lower v) pre →
     is_option o name id → str_lower name = str_lower v →
     let variables :=
       PyDict [("input", PyDict [("projectId", project_id);
                                 ("itemId", item_id);
                                 ("fieldId", field_id);
                                 ("value", PyDict [("singleSelectOptionId", id)])])] in
     let out := requests_post w token m_updateProjectV2ItemFieldValue variables in
     update_field token project_id item_id field_id (PyStr "SINGLE_SELECT") v
       (PyList (pre ++ o :: post)) w
       = (payload_of out ≫= (λ _, Ok tt),
          w ++ [Post token m_updateProjectV2ItemFieldValue variables out]) ∧
     (out = Refused ↔
      serialisable project_id && serialisable item_id && serialisable field_id &&
      serialisable id = false)) ∧
  (∀ x xs,
     Forall (λ x, ∃ n i, is_option x n i ∧ str_lower n ≠ str_lower v) (x :: xs) →
     update_field token project_id item_id field_id (PyStr "SINGLE_SELECT") v
       (PyList (x :: xs)) w
       = (Ok tt, w ++ [Stderr (Warn_select_unknown_option v)])).
Proof.
  split; [|split].
  - intros opts E. by rewrite update_field_select, E.
  - intros pre o name id post Hpre Ho Hm. cbv zeta. split.
    + rewrite update_field_select.
      assert (truthy (PyList (pre ++ o :: post)) = true) as -> by by destruct pre.
      unfold mbind at 1, M_bind, bind, lift. cbn [negb iterate mbind result_bind].
      rewrite (next_match_first _ _ _ _ _ _ Hpre Ho Hm).
      destruct Ho as (items & -> & Hn & Hi).
      assert (truthy (PyDict items) = true) as -> by by destruct items.
      cbn [negb getitem]. rewrite Hi. apply submit_value_run.
    + rewrite requests_post_refused. simpl.
      by rewrite !andb_true_r, !andb_assoc.
  - intros x xs Hall. rewrite update_field_select.
    unfold mbind, M_bind, bind, lift. cbn [negb iterate mbind result_bind truthy].
    by rewrite (next_match_none _ _ Hall).
Qed.

(** *** The two lookups of the resolver *)

Lemma lookup_user_run token owner number w :
  lookup_user token owner number w =
    (match payload_of (requests_post w token q_user (owner_variables owner number))
             ≫= (λ d, projectV2_of d "user") with
     | Raise e => if is_RuntimeError e then Ok PyNone else Raise e
     | r => r
     end,
     w ++ [Post token q_user (owner_variables owner number)
             (requests_post w token q_user (owner_variables owner number))]).
Proof.
  unfold lookup_user. run. rewrite gql_run.
  destruct (payload_of _) as [d|e]; simpl.
  - by destruct (projectV2_of d "user") as [|[]].
  - by destruct e.
Qed.

Lemma lookup_org_run token owner number w :
  lookup_org token owner number w =
    (payload_of (requests_post w token q_org (owner_variables owner number))
       ≫= (λ d, projectV2_of d "organization"),
     w ++ [Post token q_org (owner_variables owner number)
             (requests_post w token q_org (owner_variables owner number))]).
Proof. unfold lookup_org. run. rewrite gql_run. by destruct (payload_of _). Qed.

Lemma get_project_and_fields_run token owner number w :
  get_project_and_fields token owner number w =
    match lookup_user token owner number w with
    | (Raise e, w1) => (Raise e, w1)
    | (Ok u, w1) =>
        if truthy u then (project_of u, w1 ++ [Stdout (Info_project_found "user")])
        else
          match lookup_org token owner number w1 with
          | (Raise e, w2) => (Raise e, w2)
          | (Ok p, w2) =>
              if truthy p then (project_of p, w2 ++ [Stdout (Info_project_found "org")])
              else (Raise (RuntimeError (Project_not_found number owner)), w2)
          end
    end.
Proof.
  unfold get_project_and_fields. run.
  destruct (lookup_user token owner number w) as [[u|e] w1]; [|done].
  destruct (truthy u) eqn:Hu; simpl; [by rewrite Hu|].
  destruct (lookup_org token owner number w1) as [[p|e] w2]; [|done].
  simpl. by destruct (truthy p).
Qed.

(** C1, as the code does it. The resolver first calls the lookup under the
    user kind, and a board in its answer is the board: there is no second
    lookup. A [RuntimeError] of that call (transport or application) counts
    as no board; any other exception of it ends the resolver before a second
    lookup. With no board from the first lookup, the resolver calls the
    lookup under the organization kind: a board in its answer is the board;
    an answer without a board gives the not-found error; but an exception of
    this second call, a [RuntimeError] of [gql] included, is not caught as
    that of the first is: it is the failure of the resolver, unchanged, in
    place of the not-found error. *)
Theorem resolver_user_then_organization token owner number w :
  let o1 := requests_post w token q_user (owner_variables owner number) in
  let w1 := w ++ [Post token q_user (owner_variables owner number) o1] in
  let o2 := requests_post w1 token q_org (owner_variables owner number) in
  let w2 := w1 ++ [Post token q_org (owner_variables owner number) o2] in
  let first := payload_of o1 ≫= (λ d, projectV2_of d "user") in
  let second := payload_of o2 ≫= (λ d, projectV2_of d "organization") in
  (∀ u, first = Ok u → truthy u = true →
     get_project_and_fields token owner number w
       = (project_of u, w1 ++ [Stdout (Info_project_found "user")])) ∧
  (∀ e, first = Raise e → is_RuntimeError e = false →
     get_project_and_fields token owner number w = (Raise e, w1)) ∧
  ((∃ u, first = Ok u ∧ truthy u = false) ∨ (∃ msg, first = Raise (RuntimeError msg)) →
     (∀ p, second = Ok p → truthy p = true →
        get_project_and_fields token owner number w
          = (project_of p, w2 ++ [Stdout (Info_project_found "org")])) ∧
     (∀ p, second = Ok p → truthy p = false →
        get_project_and_fields token owner number w
          = (Raise (RuntimeError (Project_not_found number owner)), w2)) ∧
     (∀ e, second = Raise e →
        get_project_and_fields token owner number w = (Raise e, w2))).
Proof.
  intros o1 w1 o2 w2 first second.
  rewrite get_project_and_fields_run, lookup_user_run. fold o1 w1 first.
  split; [|split].
  - intros u -> Hu. by rewrite Hu.
  - intros e -> He. by rewrite He.
  - intros Hnone.
    assert (match first with
            | Ok a => Ok a
            | Raise e => if is_RuntimeError e then Ok PyNone else Raise e
            end = Ok (match first with Ok u => u | Raise _ => PyNone end) ∧
            truthy (match first with Ok u => u | Raise _ => PyNone end) = false)
      as [-> ->].
    { by destruct Hnone as [(u & -> & Hu)|(msg & ->)]. }
    rewrite lookup_org_run. fold o2 w2 second.
    split; [|split].
    + intros p -> Hp. by rewrite Hp.
    + intros p -> Hp. by rewrite Hp.
    + by intros e ->.
Qed.

(** *** The map of the fields *)

Lemma node_field_name node f :
  node_field node = Ok f → dict_get node "name" = Ok (field_name f).
Proof.
  unfold node_field. destruct (dict_get node "id"); [|done]. simpl.
  destruct (dict_get node "name"); [|done]. simpl.
  destruct (dict_get node "dataType"); [|done]. simpl.
  destruct (dict_get node "__typename") as [t|]; [|done]. simpl.
  destruct (eq_str t _); simpl.
  - destruct (dict_get_default node _ _); simpl; [|done]. by intros [= <-].
  - by intros [= <-].
Qed.

Lemma node_field_options node f :
  node_field node = Ok f →
  (is_Some (options f) ↔
   dict_get node "__typename" = Ok (PyStr "ProjectV2SingleSelectField")).
Proof.
  unfold node_field. destruct (dict_get node "id"); [|done]. simpl.
  destruct (dict_get node "name"); [|done]. simpl.
  destruct (dict_get node "dataType"); [|done]. simpl.
  destruct (dict_get node "__typename") as [t|]; [|done]. simpl.
  destruct (eq_str t _) eqn:E; simpl.
  - destruct (dict_get_default node _ _); simpl; [|done]. intros [= <-]. simpl.
    split; [|eauto]. intros _. destruct t; try done. simpl in E.
    by apply String.eqb_eq in E as ->.
  - intros [= <-]. simpl. split; [by intros [? ?]|].
    intros [= ->]. done.
Qed.

Lemma node_field_dataType node f :
  node_field node = Ok f → dict_get node "dataType" = Ok (dataType f).
Proof.
  unfold node_field. destruct (dict_get node "id"); [|done]. simpl.
  destruct (dict_get node "name"); [|done]. simpl.
  destruct (dict_get node "dataType"); [|done]. simpl.
  destruct (dict_get node "__typename") as [t|]; [|done]. simpl.
  destruct (eq_str t _); simpl.
  - destruct (dict_get_default node _ _); simpl; [|done]. by intros [= <-].
  - by intros [= <-].
Qed.

(** The options recorded for a single-select node: [node.get("options", [])
    or []]. *)
Lemma node_field_options_value node f :
  node_field node = Ok f →
  dict_get node "__typename" = Ok (PyStr "ProjectV2SingleSelectField") →
  ∃ o, dict_get_default node "options" (PyList []) = Ok o ∧
       options f = Some (py_or o (PyList [])).
Proof.
  unfold node_field. destruct (dict_get node "id"); [|done]. simpl.
  destruct (dict_get node "name"); [|done]. simpl.
  destruct (dict_get node "dataType"); [|done]. simpl.
  destruct (dict_get node "__typename") as [t|]; [|done]. simpl.
  intros Hf [= ->]. simpl in Hf.
  destruct (dict_get_default node _ _) as [o|]; [|done]. simpl in Hf.
  injection Hf as <-. by exists o.
Qed.

(** What one node does to the map: nothing, or the entry of its field under
    its name. *)
Lemma add_node_cases node m m' :
  add_node node m = Ok m' →
  m' = m ∨ ∃ k f, node_field node = Ok f ∧ field_name f = PyStr k ∧ m' = <[k := f]> m.
Proof.
  unfold add_node. destruct (truthy node); simpl; [|by intros [= <-]; left].
  destruct (dict_get node "name") as [name|]; [|done]. simpl.
  destruct (truthy name); simpl; [|by intros [= <-]; left].
  destruct (node_field node) as [f|]; [|done]. simpl.
  unfold setitem. destruct (field_name f) eqn:E; try (by intros [= <-]; left); [|done..].
  intros [= <-]. right. eauto.
Qed.

(** A node whose name is the string [k] (not empty) puts its field under
    [k]. *)
Lemma add_node_named node k m m' :
  dict_get node "name" = Ok (PyStr k) → k ≠ "" → add_node node m = Ok m' →
  ∃ f, node_field node = Ok f ∧ m' = <[k := f]> m.
Proof.
  intros Hn Hk. unfold add_node.
  assert (truthy node = true) as ->.
  { destruct node; try done. by destruct items. }
  simpl. rewrite Hn. simpl.
  assert (negb (String.eqb k "") = true) as ->.
  { apply negb_true_iff. by apply String.eqb_neq. }
  simpl. destruct (node_field node) as [f|] eqn:Hf; [|done]. simpl.
  apply node_field_name in Hf as Hf'. rewrite Hn in Hf'. injection Hf' as <-.
  simpl. intros [= <-]. eauto.
Qed.

Lemma add_nodes_entries nodes m m' k f :
  add_nodes nodes m = Ok m' → m' !! k = Some f →
  m !! k = Some f ∨
  (field_name f = PyStr k ∧ ∃ node, node ∈ nodes ∧ node_field node = Ok f).
Proof.
  revert m. induction nodes as [|node nodes IH]; intros m; simpl.
  - intros [= <-]. by left.
  - destruct (add_node node m) as [m1|] eqn:E; [|done]. simpl. intros Hrest Hk.
    destruct (IH _ Hrest Hk) as [Hm1|(Hname & n & Hin & Hf)].
    + apply add_node_cases in E as [->|(k' & f' & Hf' & Hname' & ->)]; [by left|].
      destruct (decide (k' = k)) as [->|Hne].
      * rewrite lookup_insert_eq in Hm1. injection Hm1 as <-.
        right. split; [done|]. exists node. split; [apply list_elem_of_here|done].
      * rewrite lookup_insert_ne in Hm1 by done. by left.
    + right. split; [done|]. exists n. split; [by apply list_elem_of_further|done].
Qed.

(** Nodes with other names leave the entry of [k] as it is. *)
Lemma add_nodes_other_names nodes m m' k :
  add_nodes nodes m = Ok m' →
  Forall (λ n, dict_get n "name" ≠ Ok (PyStr k)) nodes →
  m' !! k = m !! k.
Proof.
  revert m. induction nodes as [|node nodes IH]; intros m; simpl.
  - by intros [= <-].
  - destruct (add_node node m) as [m1|] eqn:E; [|done]. simpl. intros Hrest Hall.
    apply Forall_cons in Hall as [Hnode Hall]. rewrite (IH _ Hrest Hall).
    apply add_node_cases in E as [->|(k' & f' & Hf' & Hname' & ->)]; [done|].
    apply node_field_name in Hf'. rewrite Hname' in Hf'.
    apply lookup_insert_ne. by intros ->.
Qed.

Lemma add_nodes_app pre post m :
  add_nodes (pre ++ post) m = add_nodes pre m ≫= add_nodes post.
Proof.
  revert m. induction pre as [|node pre IH]; intros m; simpl; [done|].
  destruct (add_node node m); simpl; [apply IH|done].
Qed.

Lemma add_nodes_total nodes m :
  Forall plain_node nodes → ∃ m', add_nodes nodes m = Ok m'.
Proof.
  intros Hall. revert m. induction Hall as [|node nodes Hnode _ IH]; intros m; simpl.
  - eauto.
  - assert (∃ m1, add_node node m = Ok m1) as [m1 ->]; [|apply IH].
    destruct Hnode as [->|(items & -> & Hname)]; [by eexists|].
    unfold add_node, node_field. destruct (truthy (PyDict items)); simpl; [|eauto].
    destruct (assoc "name" items) as [x|] eqn:E; simpl; [|eauto].
    destruct (Hname x eq_refl) as [->|[s ->]]; simpl; [eauto|].
    destruct (negb (String.eqb s "")); simpl; [|eauto].
    destruct (eq_str _ _); simpl; eauto.
Qed.

(** C8. The map [get_project_and_fields] builds from the board it found: it
    is built whenever the field list is a list of plain nodes and the board
    has an "id"; each entry stands under the name of its field, and is the
    field of a node of the list; a node named [k] that no later node of the
    list shares its name with gives the entry under [k] (the last of that
    name is kept); and the field of a node has options exactly when the node
    is a single-select one (by its "__typename"), and then they are the
    "options" of the node, or the empty list; for a node whose "dataType" is
    SINGLE_SELECT exactly when it is a single-select one, as the service
    types them, that is exactly when the kind of the field is
    SINGLE_SELECT. *)
Theorem fields_keyed_by_name_last_wins proj :
  (∀ nodes id, field_nodes proj = Ok nodes → Forall plain_node nodes →
     getitem proj "id" = Ok id → ∃ p, project_of proj = Ok p) ∧
  (∀ p, project_of proj = Ok p →
     ∃ nodes, field_nodes proj = Ok nodes ∧
       (∀ k f, fields p !! k = Some f →
          field_name f = PyStr k ∧ ∃ node, node ∈ nodes ∧ node_field node = Ok f) ∧
       (∀ pre node post k,
          nodes = pre ++ node :: post →
          dict_get node "name" = Ok (PyStr k) → k ≠ "" →
          Forall (λ n, dict_get n "name" ≠ Ok (PyStr k)) post →
          ∃ f, node_field node = Ok f ∧ fields p !! k = Some f) ∧
       (∀ node f, node ∈ nodes → node_field node = Ok f →
          (is_Some (options f) ↔
           dict_get node "__typename" = Ok (PyStr "ProjectV2SingleSelectField")) ∧
          (dict_get node "__typename" = Ok (PyStr "ProjectV2SingleSelectField") →
           ∃ o, dict_get_default node "options" (PyList []) = Ok o ∧
                options f = Some (py_or o (PyList []))) ∧
          ((dict_get node "__typename" = Ok (PyStr "ProjectV2SingleSelectField") ↔
            dict_get node "dataType" = Ok (PyStr "SINGLE_SELECT")) →
           (is_Some (options f) ↔ dataType f = PyStr "SINGLE_SELECT")))).
Proof.
  unfold project_of. split.
  - intros nodes id -> Hall Hid. simpl.
    destruct (add_nodes_total nodes ∅ Hall) as [m ->]. simpl. rewrite Hid. simpl. eauto.
  - intros p. destruct (field_nodes proj) as [nodes|]; [|done]. simpl.
    destruct (add_nodes nodes ∅) as [m|] eqn:Hm; [|done]. simpl.
    destruct (getitem proj "id"); [|done]. simpl. intros [= <-]. simpl.
    exists nodes. split; [done|]. split; [|split].
    + intros k f Hk. destruct (add_nodes_entries _ _ _ _ _ Hm Hk) as [Hempty|?]; [|done].
      by rewrite lookup_empty in Hempty.
    + intros pre node post k -> Hname Hk Hpost.
      rewrite add_nodes_app in Hm.
      destruct (add_nodes pre ∅) as [m0|]; [|done]. simpl in Hm.
      destruct (add_node node m0) as [m1|] eqn:E; [|done]. simpl in Hm.
      destruct (add_node_named _ _ _ _ Hname Hk E) as (f & Hf & ->).
      exists f. split; [done|].
      rewrite (add_nodes_other_names _ _ _ _ Hm Hpost). apply lookup_insert_eq.
    + intros node f _ Hf. split; [by apply node_field_options|].
      split; [by apply node_field_options_value|].
      intros Hschema. rewrite (node_field_options _ _ Hf), Hschema.
      rewrite (node_field_dataType _ _ Hf). split; [by intros [= ->]|by intros ->].
Qed.

(** *** The events of a computation, and what it can raise *)

Lemma bind_run {A B : Type} (m : M A) (k : A → M B) w :
  (m ≫= k) w = match m w with
               | (Ok a, w') => k a w'
               | (Raise e, w') => (Raise e, w')
               end.
Proof. reflexivity. Qed.

Lemma emits_ret {A : Type} P (a : A) : emits P (ret a).
Proof. intros w. exists []. by rewrite app_nil_r. Qed.

Lemma emits_raise {A : Type} P e : emits P (raise (A := A) e).
Proof. intros w. exists []. by rewrite app_nil_r. Qed.

Lemma emits_lift {A : Type} P (r : result A) : emits P (lift r).
Proof. intros w. exists []. by rewrite app_nil_r. Qed.

Lemma emits_emit (P : event → Prop) ev : P ev → emits P (emit ev).
Proof. intros HP w. exists [ev]. split; [done|]. by constructor. Qed.

Lemma emits_bind {A B : Type} P (m : M A) (k : A → M B) :
  emits P m → (∀ a, emits P (k a)) → emits P (m ≫= k).
Proof.
  intros Hm Hk w. rewrite bind_run. destruct (Hm w) as (evs & E & HP).
  destruct (m w) as [[a|e] w1]; simpl in E; subst w1.
  - destruct (Hk a (w ++ evs)) as (evs' & E' & HP'). exists (evs ++ evs').
    rewrite E', app_assoc. split; [done|]. by apply Forall_app.
  - by exists evs.
Qed.

Lemma emits_try_except {A : Type} P (m : M A) catches handler :
  emits P m → (∀ e, emits P (handler e)) → emits P (try_except m catches handler).
Proof.
  intros Hm Hh w. unfold try_except. destruct (Hm w) as (evs & E & HP).
  destruct (m w) as [[a|e] w1]; simpl in E; subst w1.
  - by exists evs.
  - destruct (catches e); [|by exists evs].
    destruct (Hh e (w ++ evs)) as (evs' & E' & HP'). exists (evs ++ evs').
    rewrite E', app_assoc. split; [done|]. by apply Forall_app.
Qed.

Lemma emits_for_fold {A S : Type} P (xs : list A) (body : A → S → M S) s :
  (∀ x s, emits P (body x s)) → emits P (for_fold xs body s).
Proof.
  intros Hbody. revert s. induction xs as [|x xs IH]; intros s; simpl.
  - apply emits_ret.
  - apply emits_bind; [apply Hbody|apply IH].
Qed.

Lemma emits_for_each {A : Type} P (xs : list A) (body : A → M unit) :
  (∀ x, emits P (body x)) → emits P (for_each xs body).
Proof.
  intros Hbody. induction xs as [|x xs IH]; simpl.
  - apply emits_ret.
  - apply emits_bind; [apply Hbody|by intros _].
Qed.

Lemma emits_gql (P : event → Prop) token query variables :
  (∀ o, P (Post token query variables o)) → emits P (gql token query variables).
Proof.
  intros HP w. rewrite gql_run. eexists. split; [done|]. constructor; [apply HP|done].
Qed.

Lemma ordinary_Ok {A : Type} (a : A) : ordinary (Ok a).
Proof. by intros e. Qed.

Lemma ordinary_bind {A B : Type} (r : result A) (k : A → result B) :
  ordinary r → (∀ a, ordinary (k a)) → ordinary (r ≫= k).
Proof.
  intros Hr Hk. destruct r as [a|e]; simpl; [apply Hk|].
  intros e' [= <-]. by apply Hr.
Qed.

Lemma ordinary_getitem v k : ordinary (getitem v k).
Proof. intros e. destruct v; simpl; try by intros [= <-]. by destruct (assoc k items); intros [= <-]. Qed.

Lemma ordinary_dict_get v k : ordinary (dict_get v k).
Proof. intros e. destruct v; simpl; by intros [= <-]. Qed.

Lemma ordinary_iterate v : ordinary (iterate v).
Proof. intros e. destruct v; simpl; by intros [= <-]. Qed.

Lemma ordinary_contains k v : ordinary (contains k v).
Proof. intros e. destruct v; simpl; by intros [= <-]. Qed.

Lemma ordinary_name_matches v o : ordinary (name_matches v o).
Proof.
  intros e. unfold name_matches. pose proof (ordinary_getitem o "name") as Ho.
  destruct (getitem o "name") as [[]|e']; try by intros [= <-].
  intros [= <-]. by apply Ho.
Qed.

Lemma ordinary_next_match v xs : ordinary (next_match (name_matches v) xs).
Proof.
  induction xs as [|x xs IH]; simpl; [apply ordinary_Ok|].
  pose proof (ordinary_name_matches v x) as Hx.
  destruct (name_matches v x) as [[]|e']; [apply ordinary_Ok|exact IH|].
  intros e [= <-]. by apply Hx.
Qed.

Lemma ordinary_payload_of o : ordinary (payload_of o).
Proof.
  destruct o as [|r|]; simpl; [by intros e [= <-]| |by intros e [= <-]].
  destruct (negb _); [by intros e [= <-]|].
  apply ordinary_bind; [destruct (json r); [apply ordinary_Ok|by intros e [= <-]]|].
  intros data. apply ordinary_bind; [apply ordinary_contains|].
  intros []; [|apply ordinary_getitem].
  apply ordinary_bind; [apply ordinary_getitem|]. by intros errors e [= <-].
Qed.

Lemma raises_ordinary_ret {A : Type} (a : A) : raises_ordinary (ret a).
Proof. by intros w e. Qed.

Lemma raises_ordinary_lift {A : Type} (r : result A) : ordinary r → raises_ordinary (lift r).
Proof. by intros Hr w. Qed.

Lemma raises_ordinary_emit ev : raises_ordinary (emit ev).
Proof. by intros w e. Qed.

Lemma raises_ordinary_bind {A B : Type} (m : M A) (k : A → M B) :
  raises_ordinary m → (∀ a, raises_ordinary (k a)) → raises_ordinary (m ≫= k).
Proof.
  intros Hm Hk w. rewrite bind_run. specialize (Hm w).
  destruct (m w) as [[a|e] w1]; [apply Hk|].
  intros e' [= <-]. by apply Hm.
Qed.

Lemma raises_ordinary_gql token query variables :
  raises_ordinary (gql token query variables).
Proof. intros w. rewrite gql_run. apply ordinary_payload_of. Qed.

Lemma raises_ordinary_submit_value token project_id item_id field_id val :
  raises_ordinary (submit_value token project_id item_id field_id val).
Proof.
  apply raises_ordinary_bind; [apply raises_ordinary_gql|].
  intros _. apply raises_ordinary_ret.
Qed.

(** Whatever [update_field] raises is an [Exception]. *)
Lemma raises_ordinary_update_field token project_id item_id field_id data_type v opts :
  raises_ordinary (update_field token project_id item_id field_id data_type v opts).
Proof.
  unfold update_field.
  destruct (eq_str data_type "TEXT"); [apply raises_ordinary_submit_value|].
  destruct (eq_str data_type "NUMBER").
  { destruct (float_of_str v); [apply raises_ordinary_submit_value|apply raises_ordinary_emit]. }
  destruct (eq_str data_type "DATE"); [apply raises_ordinary_submit_value|].
  destruct (eq_str data_type "SINGLE_SELECT"); [|apply raises_ordinary_emit].
  destruct (negb (truthy opts)); [apply raises_ordinary_emit|].
  apply raises_ordinary_bind.
  { apply raises_ordinary_lift, ordinary_bind; [apply ordinary_iterate|].
    intros xs. apply ordinary_next_match. }
  intros opt. destruct (negb (truthy opt)); [apply raises_ordinary_emit|].
  apply raises_ordinary_bind; [apply raises_ordinary_lift, ordinary_getitem|].
  intros id. apply raises_ordinary_submit_value.
Qed.

(** *** The columns of a row *)

Lemma set_column_other token project_id item_id project_fields col w :
  is_field_column project_fields col = false →
  set_column token project_id item_id project_fields col w = (Ok tt, w).
Proof.
  destruct col as [col_name [s|]]; unfold is_field_column, set_column; simpl.
  - destruct (reserved col_name); [done|]. simpl.
    destruct (String.eqb (str_strip s) ""); [done|]. simpl.
    destruct (project_fields !! col_name) eqn:E; [|done].
    rewrite bool_decide_eq_true_2 by eauto. done.
  - by destruct (reserved col_name).
Qed.

Lemma set_column_field token project_id item_id project_fields col_name s :
  is_field_column project_fields (col_name, Some s) = true →
  ∃ f, project_fields !! col_name = Some f ∧
       set_column token project_id item_id project_fields (col_name, Some s)
         = try_except
             (update_field token project_id item_id (field_id f) (dataType f)
                (str_strip s) (options_for f))
             is_Exception
             (λ e, print_err (Warn_field_not_set col_name (Some s) e)).
Proof.
  unfold is_field_column, set_column. simpl.
  destruct (reserved col_name); [done|]. simpl.
  destruct (String.eqb (str_strip s) ""); [done|]. simpl.
  destruct (project_fields !! col_name) as [f|] eqn:E.
  - intros _. by exists f.
  - rewrite bool_decide_eq_false_2; [done|]. by intros [? ?].
Qed.

Lemma for_each_filter token project_id item_id project_fields (r : row) w :
  for_each r (set_column token project_id item_id project_fields) w
    = for_each (List.filter (is_field_column project_fields) r)
        (set_column token project_id item_id project_fields) w.
Proof.
  revert w. induction r as [|col r IH]; intros w; [done|]. simpl.
  destruct (is_field_column project_fields col) eqn:E; simpl.
  - rewrite !bind_run. destruct (set_column _ _ _ _ col w) as [[[]|e] w']; [apply IH|done].
  - rewrite bind_run, set_column_other by done. apply IH.
Qed.

(** C6. In the loop over the columns of a row, a column with a reserved name,
    with no cell or a blank one, or with a name that is no field name does
    nothing at all (no event, nothing raised); a column that is none of
    these is [update_field] on the field of that name with the stripped
    cell; so the loop is the loop over these columns alone. *)
Theorem only_field_columns_are_set token project_id item_id project_fields :
  (∀ col_name, col_name ∈ ["Title"; "title"; "Body"; "body";
                           "Labels"; "labels"; "Assignees"; "assignees"] →
     ∀ cell, is_field_column project_fields (col_name, cell) = false) ∧
  (∀ col w, is_field_column project_fields col = false →
     set_column token project_id item_id project_fields col w = (Ok tt, w)) ∧
  (∀ col_name s, is_field_column project_fields (col_name, Some s) = true →
     ∃ f, project_fields !! col_name = Some f ∧
          set_column token project_id item_id project_fields (col_name, Some s)
            = try_except
                (update_field token project_id item_id (field_id f) (dataType f)
                   (str_strip s) (options_for f))
                is_Exception
                (λ e, print_err (Warn_field_not_set col_name (Some s) e))) ∧
  (∀ (r : row) w,
     for_each r (set_column token project_id item_id project_fields) w
       = for_each (List.filter (is_field_column project_fields) r)
           (set_column token project_id item_id project_fields) w).
Proof.
  split; [|split; [|split]].
  - intros col_name Hin cell. unfold is_field_column, reserved. simpl.
    by rewrite bool_decide_eq_true_2.
  - intros col w. apply set_column_other.
  - apply set_column_field.
  - apply for_each_filter.
Qed.

(** *** Failures *)

(** A column never raises: what [update_field] raises is caught and
    reported. *)
Lemma set_column_returns token project_id item_id project_fields col w :
  ∃ w', set_column token project_id item_id project_fields col w = (Ok tt, w').
Proof.
  destruct (is_field_column project_fields col) eqn:E.
  - destruct col as [col_name [s|]].
    2: { unfold is_field_column in E. simpl in E. by destruct (reserved col_name). }
    destruct (set_column_field token project_id item_id _ _ _ E) as (f & _ & ->).
    unfold try_except.
    pose proof (raises_ordinary_update_field token project_id item_id (field_id f)
                  (dataType f) (str_strip s) (options_for f) w) as Hord.
    destruct (update_field _ _ _ _ _ _ _ w) as [[[]|e] w']; [by eexists|].
    rewrite (Hord e eq_refl). by eexists.
  - rewrite set_column_other by done. by eexists.
Qed.

(** C7. A row without a title prints the report and nothing else, and the
    loop goes on with the next row. A column of a row never raises: an
    exception of [update_field] for it is caught and reported, and the loop
    goes on with the next column. An exception of any other step of a row
    (the users, the creation of the item, the pause) is the exception of the
    row; an exception of a row ends the loop over the rows with that
    exception, and, like one of the resolver or of the repository lookup,
    ends [main] with it. *)
Theorem failures_per_field_and_per_row (a : args) (p : project) (repo_id : value) :
  (∀ i r rest w, cell_or_empty (row_title r) = "" →
     process_row (token_of a) p (draft a) (cell_or_empty (arg_repo a)) repo_id
       (rate_sleep a) i r w = (Ok tt, w ++ [Stderr (Err_title_missing i)]) ∧
     process_rows a p repo_id i (r :: rest) w
       = process_rows a p repo_id (i + 1) rest (w ++ [Stderr (Err_title_missing i)])) ∧
  (∀ item_id col rest w,
     (∃ w', set_column (token_of a) (project_id p) item_id (fields p) col w = (Ok tt, w')) ∧
     for_each (col :: rest) (set_column (token_of a) (project_id p) item_id (fields p)) w
       = for_each rest (set_column (token_of a) (project_id p) item_id (fields p))
           (snd (set_column (token_of a) (project_id p) item_id (fields p) col w))) ∧
  (∀ item_id col_name s f w e w',
     is_field_column (fields p) (col_name, Some s) = true →
     fields p !! col_name = Some f →
     update_field (token_of a) (project_id p) item_id (field_id f) (dataType f)
       (str_strip s) (options_for f) w = (Raise e, w') →
     set_column (token_of a) (project_id p) item_id (fields p) (col_name, Some s) w
       = (Ok tt, w' ++ [Stderr (Warn_field_not_set col_name (Some s) e)])) ∧
  (∀ i r w e w', cell_or_empty (row_title r) ≠ "" →
     let row_result :=
       process_row (token_of a) p (draft a) (cell_or_empty (arg_repo a)) repo_id
         (rate_sleep a) i r w in
     (get_user_ids (token_of a) (row_assignees r) w = (Raise e, w') →
        row_result = (Raise e, w')) ∧
     (∀ ids w1,
        get_user_ids (token_of a) (row_assignees r) w = (Ok ids, w1) →
        create_item (token_of a) (project_id p) (draft a) (cell_or_empty (arg_repo a))
          repo_id (cell_or_empty (row_title r)) (row_body r) (row_labels r) ids w1
          = (Raise e, w') →
        row_result = (Raise e, w')) ∧
     (∀ ids w1 item_id w2 w3,
        get_user_ids (token_of a) (row_assignees r) w = (Ok ids, w1) →
        create_item (token_of a) (project_id p) (draft a) (cell_or_empty (arg_repo a))
          repo_id (cell_or_empty (row_title r)) (row_body r) (row_labels r) ids w1
          = (Ok item_id, w2) →
        for_each r (set_column (token_of a) (project_id p) item_id (fields p)) w2
          = (Ok tt, w3) →
        time_sleep (rate_sleep a) w3 = (Raise e, w') →
        row_result = (Raise e, w'))) ∧
  (∀ i r rest w e w',
     process_row (token_of a) p (draft a) (cell_or_empty (arg_repo a)) repo_id
       (rate_sleep a) i r w = (Raise e, w') →
     process_rows a p repo_id i (r :: rest) w = (Raise e, w')) ∧
  (∀ w e w', token_of a ≠ "" →
     (get_project_and_fields (token_of a) (project_owner a) (project_number a) w
        = (Raise e, w') → main a w = (Raise e, w')) ∧
     (∀ w1,
        get_project_and_fields (token_of a) (project_owner a) (project_number a) w
          = (Ok p, w1) →
        (resolve_repo a w1 = (Raise e, w') → main a w = (Raise e, w')) ∧
        (∀ w2, resolve_repo a w1 = (Ok repo_id, w2) →
           process_rows a p repo_id 1 (csv_rows a) w2 = (Raise e, w') →
           main a w = (Raise e, w')))).
Proof.
  split; [|split; [|split; [|split; [|split]]]].
  - intros i r rest w Ht.
    assert (process_row (token_of a) p (draft a) (cell_or_empty (arg_repo a)) repo_id
              (rate_sleep a) i r w = (Ok tt, w ++ [Stderr (Err_title_missing i)])) as E.
    { unfold process_row. by rewrite Ht. }
    split; [exact E|]. unfold process_rows. simpl. by rewrite bind_run, E.
  - intros item_id col rest w.
    destruct (set_column_returns (token_of a) (project_id p) item_id (fields p) col w)
      as [w' E].
    split; [eauto|]. simpl. by rewrite bind_run, E.
  - intros item_id col_name s f w e w' Hcol Hf Hup.
    destruct (set_column_field (token_of a) (project_id p) item_id _ _ _ Hcol)
      as (f' & Hf' & ->).
    rewrite Hf in Hf'. injection Hf' as <-. unfold try_except. rewrite Hup.
    pose proof (raises_ordinary_update_field (token_of a) (project_id p) item_id
                  (field_id f) (dataType f) (str_strip s) (options_for f) w) as Hord.
    rewrite Hup in Hord. by rewrite (Hord e eq_refl).
  - intros i r w e w' Ht row_result. subst row_result. unfold process_row.
    apply String.eqb_neq in Ht. rewrite Ht.
    split; [|split].
    + intros E. by rewrite bind_run, E.
    + intros ids w1 E1 E2. by rewrite bind_run, E1, bind_run, E2.
    + intros ids w1 item_id w2 w3 E1 E2 E3 E4.
      by rewrite bind_run, E1, bind_run, E2, bind_run, E3.
  - intros i r rest w e w' E. unfold process_rows. simpl. by rewrite bind_run, E.
  - intros w e w' Ht. unfold main. apply String.eqb_neq in Ht. rewrite Ht.
    split.
    + intros E. by rewrite bind_run, E.
    + intros w1 E1. split.
      * intros E2. by rewrite bind_run, E1, bind_run, E2.
      * intros w2 E2 E3. by rewrite bind_run, E1, bind_run, E2.
Qed.

(** *** Draft mode *)

Ltac emits_step :=
  lazymatch goal with
  | |- emits _ (mbind _ _) => apply emits_bind; [|intros ?]
  | |- emits _ (ret _) => apply emits_ret
  | |- emits _ (raise _) => apply emits_raise
  | |- emits _ (lift _) => apply emits_lift
  | |- emits _ (emit _) => apply emits_emit; done
  | |- emits _ (gql _ _ _) => apply emits_gql; done
  | |- emits _ (try_except _ _ _) => apply emits_try_except; [|intros ?]
  | |- emits _ (for_fold _ _ _) => apply emits_for_fold; intros ? ?
  | |- emits _ (for_each _ _) => apply emits_for_each; intros ?
  end.

Lemma emits_submit_value token project_id item_id field_id val :
  emits label_free (submit_value token project_id item_id field_id val).
Proof. unfold submit_value. repeat emits_step. Qed.

Lemma emits_update_field token project_id item_id field_id data_type v opts :
  emits label_free (update_field token project_id item_id field_id data_type v opts).
Proof.
  unfold update_field, print_err.
  destruct (eq_str data_type "TEXT"); [apply emits_submit_value|].
  destruct (eq_str data_type "NUMBER").
  { destruct (float_of_str v); [apply emits_submit_value|by emits_step]. }
  destruct (eq_str data_type "DATE"); [apply emits_submit_value|].
  destruct (eq_str data_type "SINGLE_SELECT"); [|by emits_step].
  destruct (negb (truthy opts)); [by emits_step|].
  emits_step; [emits_step|]. destruct (negb (truthy a)); [by emits_step|].
  emits_step; [emits_step|]. apply emits_submit_value.
Qed.

Lemma emits_set_column token project_id item_id project_fields col :
  emits label_free (set_column token project_id item_id project_fields col).
Proof.
  destruct col as [col_name [s|]]; unfold set_column, print_err.
  - destruct (reserved col_name); [emits_step|].
    destruct (String.eqb (str_strip s) ""); [emits_step|].
    destruct (project_fields !! col_name); [|emits_step].
    emits_step; [apply emits_update_field|emits_step].
  - destruct (reserved col_name); emits_step.
Qed.

Lemma emits_get_user_ids token logins :
  emits label_free (get_user_ids token logins).
Proof.
  unfold get_user_ids. destruct logins; [emits_step|].
  emits_step. unfold user_step, print_err. repeat emits_step.
  destruct (truthy a0); repeat emits_step.
Qed.

Lemma emits_create_draft token project_id title body assignee_ids :
  emits label_free (create_draft_issue_and_item token project_id title body assignee_ids).
Proof. unfold create_draft_issue_and_item. repeat emits_step. Qed.

Lemma emits_time_sleep secs : emits label_free (time_sleep secs).
Proof. unfold time_sleep. destruct (sleep_rejects secs); emits_step. Qed.

Lemma row_get_same_but_labels r r' k :
  same_but_labels r r' → k ≠ "Labels" → k ≠ "labels" → row_get r' k = row_get r k.
Proof.
  intros Hsame Hk1 Hk2. unfold row_get.
  induction Hsame as [|[c v] [c' v'] r r' [Hc Hv] _ IH]; [done|].
  simpl in *. subst c'. destruct (String.eqb_spec k c) as [->|]; [|exact IH].
  by rewrite (Hv Hk1 Hk2).
Qed.

Lemma set_columns_same_but_labels token project_id item_id project_fields r r' w :
  same_but_labels r r' →
  for_each r' (set_column token project_id item_id project_fields) w
    = for_each r (set_column token project_id item_id project_fields) w.
Proof.
  intros Hsame. revert w.
  induction Hsame as [|[c v] [c' v'] r r' [Hc Hv] _ IH]; intros w; [done|].
  simpl in Hc, Hv. subst c'. cbn [for_each]. rewrite !bind_run.
  assert (set_column token project_id item_id project_fields (c, v') w
          = set_column token project_id item_id project_fields (c, v) w) as ->.
  { destruct (decide (c = "Labels")) as [->|H1]; [done|].
    destruct (decide (c = "labels")) as [->|H2]; [done|].
    by rewrite (Hv H1 H2). }
  destruct (set_column _ _ _ _ (c, v) w) as [[[]|e] w']; [apply IH|done].
Qed.

Lemma emits_get_project_and_fields token owner number :
  emits label_free (get_project_and_fields token owner number).
Proof.
  unfold get_project_and_fields, lookup_user, lookup_org, print.
  emits_step; [repeat emits_step|].
  emits_step.
  { destruct (negb (truthy a)); repeat emits_step. }
  destruct a0 as [proj where_]. destruct (negb (truthy proj)); repeat emits_step.
Qed.

Lemma emits_process_row_draft token p repo repo_id secs i r :
  emits label_free (process_row token p true repo repo_id secs i r).
Proof.
  unfold process_row, print_err.
  destruct (String.eqb _ ""); [by emits_step|].
  emits_step; [apply emits_get_user_ids|].
  emits_step.
  { unfold create_item, print. emits_step; [apply emits_create_draft|].
    emits_step; [by emits_step|emits_step]. }
  emits_step; [|apply emits_time_sleep].
  emits_step. apply emits_set_column.
Qed.

(** C10. In draft mode, nothing a row does has to do with labels: among the
    events of the row there is no label query and no warning about missing
    labels, and the input of the draft created has no "labelIds"; the row
    does the same whatever its "Labels" and "labels" cells hold; and so it
    is for the whole run in draft mode. *)
Theorem draft_mode_ignores_labels token p repo repo_id secs i (r : row) w :
  (∃ evs, snd (process_row token p true repo repo_id secs i r w) = w ++ evs ∧
          Forall label_free evs) ∧
  (∀ r', same_but_labels r r' →
     process_row token p true repo repo_id secs i r' w
       = process_row token p true repo repo_id secs i r w) ∧
  (∀ a, draft a = true →
     ∃ evs, snd (main a w) = w ++ evs ∧ Forall label_free evs).
Proof.
  split; [apply emits_process_row_draft|]. split.
  - intros r' Hsame. unfold process_row, row_title, row_body, row_assignees.
    rewrite !(row_get_same_but_labels r r') by done.
    destruct (String.eqb _ ""); [done|].
    rewrite !bind_run.
    destruct (get_user_ids _ _ w) as [[ids|e] w1]; [|done].
    unfold create_item. rewrite !bind_run.
    destruct (create_draft_issue_and_item _ _ _ _ _ w1) as [[item_id|e] w2]; [|done].
    simpl. rewrite !bind_run.
    by rewrite (set_columns_same_but_labels _ _ _ _ r r').
  - intros a Hdraft.
    assert (emits label_free (main a)) as Hem; [|apply Hem].
    unfold main, resolve_repo, process_rows, print_err. rewrite Hdraft.
    destruct (String.eqb _ ""); [repeat emits_step|].
    emits_step; [apply emits_get_project_and_fields|].
    emits_step; [simpl; emits_step|].
    emits_step. apply emits_process_row_draft.
Qed.

(** *** Label resolution *)
















(** *** Tracked mode *)

Lemma create_issue_log token repo_id title body label_ids assignee_ids w :
  ∃ rest,
    snd (create_issue token repo_id title body label_ids assignee_ids w)
      = w ++ Post token m_createIssue
                (PyDict [("input", PyDict [("repositoryId", repo_id);
                                           ("title", PyStr title);
                                           ("body", PyStr (str_or_empty body));
                                           ("labelIds", list_or_None label_ids);
                                           ("assigneeIds", list_or_None assignee_ids)])])
                (requests_post w token m_createIssue
                   (PyDict [("input", PyDict [("repositoryId", repo_id);
                                              ("title", PyStr title);
                                              ("body", PyStr (str_or_empty body));
                                              ("labelIds", list_or_None label_ids);
                                              ("assigneeIds", list_or_None assignee_ids)])]))
              :: rest.
Proof.
  unfold create_issue. run. rewrite gql_run.
  destruct (payload_of _) as [d|e]; simpl; [|by exists []].
  destruct (result_bind _ _ _ _) as [issue|]; simpl; [|by exists []].
  destruct (getitem issue "number"); simpl; [|by exists []].
  destruct (getitem issue "url"); simpl; [|by exists []].
  eexists. destruct (getitem issue "id"); simpl; by rewrite <- app_assoc.
Qed.

Lemma emits_add_item_to_project token project_id content_id :
  emits (λ _, True) (add_item_to_project token project_id content_id).
Proof. unfold add_item_to_project. repeat emits_step. Qed.

(** C9. [create_issue] starts with the POST of its mutation, whose input has
    "labelIds" and "assigneeIds" set to [None] when the list is empty and to
    the list itself otherwise; in tracked mode the item of a row is created
    by that call, on the identifiers label resolution returned and those of
    the assignees. *)
Theorem create_issue_empty_lists_unset token repo_id title body label_ids assignee_ids w :
  (∃ input o rest,
     snd (create_issue token repo_id title body label_ids assignee_ids w)
       = w ++ Post token m_createIssue (PyDict [("input", PyDict input)]) o :: rest ∧
     assoc "labelIds" input
       = Some (match label_ids with [] => PyNone | _ :: _ => PyList label_ids end) ∧
     assoc "assigneeIds" input
       = Some (match assignee_ids with [] => PyNone | _ :: _ => PyList assignee_ids end)) ∧
  (∀ project_id repo labels w0,
     get_label_ids token repo labels w0 = (Ok label_ids, w) →
     ∃ input o rest,
       snd (create_item token project_id false repo repo_id title body labels
              assignee_ids w0)
         = w ++ Post token m_createIssue (PyDict [("input", PyDict input)]) o :: rest ∧
       assoc "labelIds" input
         = Some (match label_ids with [] => PyNone | _ :: _ => PyList label_ids end) ∧
       assoc "assigneeIds" input
         = Some (match assignee_ids with [] => PyNone | _ :: _ => PyList assignee_ids end)).
Proof.
  destruct (create_issue_log token repo_id title body label_ids assignee_ids w)
    as [rest Hlog].
  split.
  - eexists _, _, rest. split; [exact Hlog|]. split; simpl.
    + by destruct label_ids.
    + by destruct assignee_ids.
  - intros project_id repo labels w0 Hlabels.
    assert (∃ more,
      snd (create_item token project_id false repo repo_id title body labels
             assignee_ids w0)
        = snd (create_issue token repo_id title body label_ids assignee_ids w) ++ more)
      as [more Hmore].
    { unfold create_item. rewrite bind_run, Hlabels, bind_run.
      destruct (create_issue _ _ _ _ _ _ w) as [[issue_id|e] w1]; [|exists []; simpl;
        by rewrite app_nil_r].
      rewrite bind_run. cbn [snd].
      destruct (emits_add_item_to_project token project_id issue_id w1) as (evs & E & _).
      destruct (add_item_to_project _ _ _ w1) as [[item_id|e] w2]; simpl in E; subst w2.
      - exists (evs ++ [Stdout (Item_added item_id)]). unfold print. run.
        by rewrite app_assoc.
      - by exists evs. }
    rewrite Hmore, Hlog. eexists _, _, (rest ++ more).
    split; [by rewrite <- app_assoc|]. split; simpl.
    + by destruct label_ids.
    + by destruct assignee_ids.
Qed.

End Properties.

(** * The properties at work *)

Section Runs.
Import Examples.

(** C1 at work: for a login that is no user and no organization, both
    lookups are made and the failure is the application error of the
    second. *)
Lemma resolver_user_then_organization_witness :
  get_project_and_fields (remote := unknown_owner_service) "tok" "nobody" 7 []
    = (Raise (RuntimeError (GraphQL_errors not_found)),
       [Post "tok" q_user (owner_variables "nobody" 7) user_not_found;
        Post "tok" q_org (owner_variables "nobody" 7) organization_not_found]).
Proof.
  destruct (resolver_user_then_organization (remote := unknown_owner_service)
              "tok" "nobody" 7 []) as (_ & _ & Hnone).
  destruct Hnone as (_ & _ & Hraise); [right; by eexists|].
  exact (Hraise _ eq_refl).
Defined.

(** C1 fails on the code. For a login that is no user and no organization,
    the service answers both lookups with no board and a NOT_FOUND entry
    under "errors": neither lookup yields a board, and the failure is the
    application error of the second lookup, not the not-found error. In the
    same way, with the service down, the failure is the transport error of
    the second lookup. *)
Lemma resolver_failure_is_not_always_not_found :
  (¬ ∃ u, fst (lookup_user (remote := unknown_owner_service) "tok" "nobody" 7 []) = Ok u ∧
          truthy u = true) ∧
  (¬ ∃ p, fst (lookup_org (remote := unknown_owner_service) "tok" "nobody" 7
                 [Post "tok" q_user (owner_variables "nobody" 7) user_not_found]) = Ok p ∧
          truthy p = true) ∧
  fst (get_project_and_fields (remote := unknown_owner_service) "tok" "nobody" 7 [])
    = Raise (RuntimeError (GraphQL_errors not_found)) ∧
  fst (get_project_and_fields (remote := unknown_owner_service) "tok" "nobody" 7 [])
    ≠ Raise (RuntimeError (Project_not_found 7 "nobody")) ∧
  get_project_and_fields (remote := down_service) "tok" "nobody" 7 []
    = (Raise (RuntimeError (GraphQL_HTTP 502 "Bad Gateway")),
       [Post "tok" q_user (owner_variables "nobody" 7)
          (Responded {| status_code := 502; text := "Bad Gateway"; json := None |});
        Post "tok" q_org (owner_variables "nobody" 7)
          (Responded {| status_code := 502; text := "Bad Gateway"; json := None |})]).
Proof.
  split; [|split; [|split; [|split]]].
  - intros (u & E & Hu). vm_compute in E. injection E as <-. discriminate Hu.
  - intros (p & E & _). vm_compute in E. discriminate E.
  - reflexivity.
  - intros E. vm_compute in E. discriminate E.
  - reflexivity.
Qed.

(** C2 at work: "abc" is skipped with the warning, "42" is submitted in one
    mutation, which the service answers. *)
Lemma update_field_number_witness :
  update_field (builtins := ascii_builtins) (remote := quiet_service)
    "tok" (PyStr "P1") (PyStr "I1") (PyStr "F4") (PyStr "NUMBER") "abc" PyNone []
    = (Ok tt, [Stderr (Warn_number_ignored "abc")]) ∧
  update_field (builtins := ascii_builtins) (remote := quiet_service)
    "tok" (PyStr "P1") (PyStr "I1") (PyStr "F4") (PyStr "NUMBER") "42" PyNone []
    = (Ok tt,
       [Post "tok" m_updateProjectV2ItemFieldValue
          (PyDict [("input", PyDict [("projectId", PyStr "P1"); ("itemId", PyStr "I1");
                                     ("fieldId", PyStr "F4");
                                     ("value", PyDict [("number", PyFloat 42%float)])])])
          (ok_data (PyDict []))]).
Proof.
  split.
  - exact (proj2 (update_field_number (builtins := ascii_builtins) (remote := quiet_service)
                    "tok" (PyStr "P1") (PyStr "I1") (PyStr "F4") "abc" PyNone []) eq_refl).
  - exact (proj1 (proj1 (update_field_number (builtins := ascii_builtins)
                           (remote := quiet_service)
                           "tok" (PyStr "P1") (PyStr "I1") (PyStr "F4") "42" PyNone [])
                    42%float eq_refl)).
Defined.

(** C2 as stated fails: "nan" and "inf" parse as floating-point numbers, and
    no mutation is issued for them. Whatever the service, the payload is
    refused before anything is sent, and the call raises. *)
Lemma number_not_finite_is_not_submitted :
  float_of_str (Builtins := ascii_builtins) "nan" = Some PrimFloat.nan ∧
  float_of_str (Builtins := ascii_builtins) "inf" = Some PrimFloat.infinity ∧
  (∀ remote : Remote,
     update_field (builtins := ascii_builtins) (remote := remote)
       "tok" (PyStr "P1") (PyStr "I1") (PyStr "F4") (PyStr "NUMBER") "nan" PyNone []
       = (Raise InvalidJSONError,
          [Post "tok" m_updateProjectV2ItemFieldValue
             (PyDict [("input", PyDict [("projectId", PyStr "P1"); ("itemId", PyStr "I1");
                                        ("fieldId", PyStr "F4");
                                        ("value", PyDict [("number",
                                                           PyFloat PrimFloat.nan)])])])
             Refused])) ∧
  (∀ remote : Remote,
     update_field (builtins := ascii_builtins) (remote := remote)
       "tok" (PyStr "P1") (PyStr "I1") (PyStr "F4") (PyStr "NUMBER") "inf" PyNone []
       = (Raise InvalidJSONError,
          [Post "tok" m_updateProjectV2ItemFieldValue
             (PyDict [("input", PyDict [("projectId", PyStr "P1"); ("itemId", PyStr "I1");
                                        ("fieldId", PyStr "F4");
                                        ("value", PyDict [("number",
                                                           PyFloat PrimFloat.infinity)])])])
             Refused])) ∧
  (∀ remote : Remote,
     issued (snd (update_field (builtins := ascii_builtins) (remote := remote)
                    "tok" (PyStr "P1") (PyStr "I1") (PyStr "F4") (PyStr "NUMBER") "nan"
                    PyNone [])) = [] ∧
     issued (snd (update_field (builtins := ascii_builtins) (remote := remote)
                    "tok" (PyStr "P1") (PyStr "I1") (PyStr "F4") (PyStr "NUMBER") "inf"
                    PyNone [])) = []).
Proof.
  split; [reflexivity|]. split; [reflexivity|].
  split; [|split]; intros remote; [reflexivity..|split; reflexivity].
Qed.

Ltac other_option :=
  eexists _, _; split; [eexists; split; [reflexivity|split; reflexivity]|];
  vm_compute; discriminate.

(** C3 at work: against Low, Medium, High, the text "hIgH" submits the
    identifier of High in one mutation, and the text "Hi" is skipped with
    the warning. *)
Lemma update_field_single_select_witness :
  update_field (builtins := ascii_builtins) (remote := quiet_service)
    "tok" (PyStr "P1") (PyStr "I1") (PyStr "F5") (PyStr "SINGLE_SELECT") "hIgH"
    (PyList priorities) []
    = (Ok tt,
       [Post "tok" m_updateProjectV2ItemFieldValue
          (PyDict [("input", PyDict [("projectId", PyStr "P1"); ("itemId", PyStr "I1");
                                     ("fieldId", PyStr "F5");
                                     ("value", PyDict [("singleSelectOptionId",
                                                        PyStr "O3")])])])
          (ok_data (PyDict []))]) ∧
  update_field (builtins := ascii_builtins) (remote := quiet_service)
    "tok" (PyStr "P1") (PyStr "I1") (PyStr "F5") (PyStr "SINGLE_SELECT") "Hi"
    (PyList priorities) []
    = (Ok tt, [Stderr (Warn_select_unknown_option "Hi")]).
Proof.
  destruct (update_field_single_select (builtins := ascii_builtins)
              (remote := quiet_service) "tok" (PyStr "P1") (PyStr "I1") (PyStr "F5")
              "hIgH" []) as (_ & Hfound & _).
  destruct (update_field_single_select (builtins := ascii_builtins)
              (remote := quiet_service) "tok" (PyStr "P1") (PyStr "I1") (PyStr "F5")
              "Hi" []) as (_ & _ & Hnone).
  split.
  - refine (proj1 (Hfound [PyDict [("id", PyStr "O1"); ("name", PyStr "Low")];
                           PyDict [("id", PyStr "O2"); ("name", PyStr "Medium")]]
                     (PyDict [("id", PyStr "O3"); ("name", PyStr "High")]) "High"
                     (PyStr "O3") [] _ _ _)).
    + repeat constructor; other_option.
    + eexists. split; [reflexivity|split; reflexivity].
    + reflexivity.
  - apply Hnone. repeat constructor; other_option.
Defined.


(** The same run, computed: one query per name, the identifier of "Bug" for
    "bug", and the warning for "urgent". *)
Example label_resolution_run :
  get_label_ids (builtins := ascii_builtins) (remote := labels_service)
    "tok" "o/r" ["bug"; " urgent "; ""; "bug "] []
    = (Ok [PyStr "L1"],
       [Post "tok" q_labels (labels_variables "o" "r" "urgent") (labels_found [docs_label]);
        Post "tok" q_labels (labels_variables "o" "r" "bug")
          (labels_found [docs_label; bug_label]);
        Stderr (Warn_labels_missing ["urgent"])]).
Proof. vm_compute. reflexivity. Qed.

(** C5 at work: a call to a service that is down raises the transport error
    with 502 and the body. *)
Lemma gql_contract_witness :
  fst (gql (remote := down_service) "tok" q_login (PyDict [("login", PyStr "me")]) [])
    = Raise (RuntimeError (GraphQL_HTTP 502 "Bad Gateway")).
Proof.
  destruct (gql_contract (remote := down_service) "tok" q_login
              (PyDict [("login", PyStr "me")]) []) as [_ Hresp].
  destruct (Hresp _ eq_refl) as (Hstatus & _).
  apply Hstatus. discriminate.
Defined.

(** C6 at work: with the fields of the board, the column "Other" is no
    field column and does nothing. *)
Lemma only_field_columns_are_set_witness :
  ∃ p, project_of board = Ok p ∧
       set_column (builtins := ascii_builtins) (remote := quiet_service)
         "tok" (PyStr "P1") (PyStr "I1") (fields p) ("Other", Some "1") [] = (Ok tt, []).
Proof.
  eexists. split; [vm_compute; reflexivity|].
  apply (only_field_columns_are_set (builtins := ascii_builtins) (remote := quiet_service)).
  vm_compute. reflexivity.
Defined.

(** C7 at work: a row with an empty title is reported and nothing else. *)
Lemma failures_per_field_and_per_row_witness :
  ∃ p, project_of board = Ok p ∧
       process_row (builtins := ascii_builtins) (remote := draft_service)
         "tok" p true "" PyNone 0.25%float 2 [("Title", Some ""); ("Notes", Some "n")] []
         = (Ok tt, [Stderr (Err_title_missing 2)]).
Proof.
  eexists. split; [vm_compute; reflexivity|].
  refine (proj1 (proj1 (failures_per_field_and_per_row (builtins := ascii_builtins)
                          (remote := draft_service) (draft_args []) _ PyNone)
                   2 [("Title", Some ""); ("Notes", Some "n")] [] [] _)).
  reflexivity.
Defined.

(** C8 at work: of the two fields named "Status" of the board, the second,
    the single-select one, is the entry of the map. *)
Lemma fields_keyed_by_name_last_wins_witness :
  ∃ p f, project_of board = Ok p ∧ node_field status_select = Ok f ∧
         fields p !! "Status" = Some f.
Proof.
  destruct (fields_keyed_by_name_last_wins board) as [Htotal Hmap].
  destruct (Htotal [status_text; notes_text; status_select; points_number] (PyStr "P1")
              eq_refl)
    as [p Hp]; [|reflexivity|].
  { repeat (apply Forall_cons; split;
              [right; eexists; split; [reflexivity|]; intros x [= <-]; right; by eexists|]).
    constructor. }
  destruct (Hmap p Hp) as (nodes & Hnodes & _ & Hlast & _).
  injection Hnodes as <-.
  destruct (Hlast [status_text; notes_text] status_select [points_number] "Status"
              eq_refl eq_refl)
    as (f & Hf & Hlookup); [discriminate|by repeat constructor|].
  by exists p, f.
Defined.

(** C9 at work: with no label found and no assignee, the issue is created
    with both inputs unset. *)
Lemma create_issue_empty_lists_unset_witness :
  ∃ input o rest,
    snd (create_item (builtins := ascii_builtins) (remote := tracked_service)
           "tok" (PyStr "P1") false "o/r" (PyStr "R1") "Fix bug" "" ["urgent"] [] [])
      = [Post "tok" q_labels (labels_variables "o" "r" "urgent") (labels_found [docs_label]);
         Stderr (Warn_labels_missing ["urgent"])]
        ++ Post "tok" m_createIssue (PyDict [("input", PyDict input)]) o :: rest ∧
    assoc "labelIds" input = Some PyNone ∧
    assoc "assigneeIds" input = Some PyNone.
Proof.
  refine (proj2 (create_issue_empty_lists_unset (builtins := ascii_builtins)
                   (remote := tracked_service) "tok" (PyStr "R1") "Fix bug" "" [] []
                   [Post "tok" q_labels (labels_variables "o" "r" "urgent")
                      (labels_found [docs_label]);
                    Stderr (Warn_labels_missing ["urgent"])])
            (PyStr "P1") "o/r" ["urgent"] [] _).
  vm_compute. reflexivity.
Defined.

(** C10 at work: in draft mode the row does the same with another "Labels"
    cell. *)
Lemma draft_mode_ignores_labels_witness :
  ∃ p, project_of board = Ok p ∧
       process_row (builtins := ascii_builtins) (remote := draft_service)
         "tok" p true "" PyNone 0.25%float 1
         [("Title", Some "Spike idea"); ("Labels", Some "no-such-label")] []
       = process_row (builtins := ascii_builtins) (remote := draft_service)
           "tok" p true "" PyNone 0.25%float 1
           [("Title", Some "Spike idea"); ("Labels", Some "bug")] [].
Proof.
  eexists. split; [vm_compute; reflexivity|].
  apply (draft_mode_ignores_labels (builtins := ascii_builtins) (remote := draft_service)).
  repeat constructor; simpl; congruence.
Defined.

(** A whole run in draft mode: the "Labels" cell and the column "Other" do
    nothing, "Points" is skipped with the warning, "Notes" and "Status" are
    set after it, the second row has no title. *)
Example draft_run :
  main (builtins := ascii_builtins) (remote := draft_service)
    (draft_args [[("Title", Some "Spike idea"); ("Labels", Some "x");
                  ("Points", Some "abc"); ("Notes", Some " hello ");
                  ("Status", Some "done"); ("Other", Some "1")];
                 [("Title", Some ""); ("Notes", Some "n")]]) []
  = (Ok tt,
     [Post "tok" q_user (owner_variables "me" 1)
        (ok_data (PyDict [("user", PyDict [("projectV2", board)])]));
      Stdout (Info_project_found "user");
      Post "tok" m_addProjectV2DraftIssue
        (PyDict [("input", PyDict [("projectId", PyStr "P1"); ("title", PyStr "Spike idea");
                                   ("body", PyStr ""); ("assigneeIds", PyNone)])])
        (ok_data (PyDict [("addProjectV2DraftIssue",
                           PyDict [("projectItem", PyDict [("id", PyStr "I1")])])]));
      Stdout (Draft_created (PyStr "I1"));
      Stderr (Warn_number_ignored "abc");
      Post "tok" m_updateProjectV2ItemFieldValue
        (PyDict [("input", PyDict [("projectId", PyStr "P1"); ("itemId", PyStr "I1");
                                   ("fieldId", PyStr "F3");
                                   ("value", PyDict [("text", PyStr "hello")])])])
        (ok_data (PyDict []));
      Post "tok" m_updateProjectV2ItemFieldValue
        (PyDict [("input", PyDict [("projectId", PyStr "P1"); ("itemId", PyStr "I1");
                                   ("fieldId", PyStr "F2");
                                   ("value", PyDict [("singleSelectOptionId", PyStr "O2")])])])
        (ok_data (PyDict []));
      Sleep 0.25%float;
      Stderr (Err_title_missing 2)]).
Proof. vm_compute. reflexivity. Qed.

(** A run in which setting a field fails: the failure for "Notes" is
    reported, "Points" is tried after it all the same, and the run goes on
    to its end. *)
Example failing_update_run :
  main (builtins := ascii_builtins) (remote := failing_update_service)
    (draft_args [[("Title", Some "Spike idea"); ("Notes", Some "hello");
                  ("Points", Some "3")]]) []
  = (Ok tt,
     [Post "tok" q_user (owner_variables "me" 1)
        (ok_data (PyDict [("user", PyDict [("projectV2", board)])]));
      Stdout (Info_project_found "user");
      Post "tok" m_addProjectV2DraftIssue
        (PyDict [("input", PyDict [("projectId", PyStr "P1"); ("title", PyStr "Spike idea");
                                   ("body", PyStr ""); ("assigneeIds", PyNone)])])
        (ok_data (PyDict [("addProjectV2DraftIssue",
                           PyDict [("projectItem", PyDict [("id", PyStr "I1")])])]));
      Stdout (Draft_created (PyStr "I1"));
      Post "tok" m_updateProjectV2ItemFieldValue
        (PyDict [("input", PyDict [("projectId", PyStr "P1"); ("itemId", PyStr "I1");
                                   ("fieldId", PyStr "F3");
                                   ("value", PyDict [("text", PyStr "hello")])])])
        (Responded {| status_code := 502; text := "Bad Gateway"; json := None |});
      Stderr (Warn_field_not_set "Notes" (Some "hello")
                (RuntimeError (GraphQL_HTTP 502 "Bad Gateway")));
      Post "tok" m_updateProjectV2ItemFieldValue
        (PyDict [("input", PyDict [("projectId", PyStr "P1"); ("itemId", PyStr "I1");
                                   ("fieldId", PyStr "F4");
                                   ("value", PyDict [("number", PyFloat 3%float)])])])
        (Responded {| status_code := 502; text := "Bad Gateway"; json := None |});
      Stderr (Warn_field_not_set "Points" (Some "3")
                (RuntimeError (GraphQL_HTTP 502 "Bad Gateway")));
      Sleep 0.25%float]).
Proof. vm_compute. reflexivity. Qed.

End Runs.

(** * Further properties *)

Section Further.
Context {builtins : Builtins} {remote : Remote}.

(** ** The calls of a run *)

Section Calls.
Variables (token : string) (docs : document → bool) (pause : bool).

Ltac calls_step :=
  lazymatch goal with
  | |- emits _ (mbind _ _) => apply emits_bind; [|intros ?]
  | |- emits _ (ret _) => apply emits_ret
  | |- emits _ (raise _) => apply emits_raise
  | |- emits _ (lift _) => apply emits_lift
  | |- emits _ (emit _) => apply emits_emit; done
  | |- emits _ (gql _ _ _) => apply emits_gql; intros ?; by split
  | |- emits _ (try_except _ _ _) => apply emits_try_except; [|intros ?]
  | |- emits _ (for_fold _ _ _) => apply emits_for_fold; intros ? ?
  | |- emits _ (for_each _ _) => apply emits_for_each; intros ?
  end.

Lemma calls_update_field project_id item_id field_id data_type v opts :
  docs m_updateProjectV2ItemFieldValue = true →
  emits (calls token docs pause)
    (update_field token project_id item_id field_id data_type v opts).
Proof.
  intros Hd.
  assert (∀ val, emits (calls token docs pause)
                   (submit_value token project_id item_id field_id val)) as Hsub.
  { intros val. unfold submit_value. repeat calls_step. }
  unfold update_field, print_err.
  destruct (eq_str data_type "TEXT"); [apply Hsub|].
  destruct (eq_str data_type "NUMBER").
  { destruct (float_of_str v); [apply Hsub|by calls_step]. }
  destruct (eq_str data_type "DATE"); [apply Hsub|].
  destruct (eq_str data_type "SINGLE_SELECT"); [|by calls_step].
  destruct (negb (truthy opts)); [by calls_step|].
  calls_step; [calls_step|]. destruct (negb (truthy a)); [by calls_step|].
  calls_step; [calls_step|]. apply Hsub.
Qed.

Lemma calls_set_column project_id item_id project_fields col :
  docs m_updateProjectV2ItemFieldValue = true →
  emits (calls token docs pause)
    (set_column token project_id item_id project_fields col).
Proof.
  intros Hd. destruct col as [col_name [s|]]; unfold set_column, print_err.
  - destruct (reserved col_name); [calls_step|].
    destruct (String.eqb (str_strip s) ""); [calls_step|].
    destruct (project_fields !! col_name); [|calls_step].
    calls_step; [by apply calls_update_field|calls_step].
  - destruct (reserved col_name); calls_step.
Qed.

Lemma calls_get_user_ids logins :
  docs q_login = true → emits (calls token docs pause) (get_user_ids token logins).
Proof.
  intros Hd. unfold get_user_ids. destruct logins; [calls_step|].
  calls_step. unfold user_step, print_err. repeat calls_step.
  destruct (truthy a0); repeat calls_step.
Qed.

Lemma calls_get_label_ids repo labels :
  docs q_labels = true → emits (calls token docs pause) (get_label_ids token repo labels).
Proof.
  intros Hd. unfold get_label_ids, print_err. destruct labels; [calls_step|].
  calls_step; [calls_step|]. destruct a as [owner name].
  calls_step.
  { calls_step. unfold label_step. repeat calls_step.
    destruct (truthy a0); repeat calls_step. }
  destruct a as [ids remaining]. calls_step; [|calls_step].
  destruct (bool_decide _); by calls_step.
Qed.

Lemma calls_create_issue repo_id title body label_ids assignee_ids :
  docs m_createIssue = true →
  emits (calls token docs pause)
    (create_issue token repo_id title body label_ids assignee_ids).
Proof. intros Hd. unfold create_issue, print. repeat calls_step. Qed.

Lemma calls_add_item_to_project project_id content_id :
  docs m_addProjectV2ItemById = true →
  emits (calls token docs pause) (add_item_to_project token project_id content_id).
Proof. intros Hd. unfold add_item_to_project. repeat calls_step. Qed.

Lemma calls_create_draft project_id title body assignee_ids :
  docs m_addProjectV2DraftIssue = true →
  emits (calls token docs pause)
    (create_draft_issue_and_item token project_id title body assignee_ids).
Proof. intros Hd. unfold create_draft_issue_and_item. repeat calls_step. Qed.

Lemma calls_create_item project_id (is_draft : bool) repo repo_id title body labels
    assignee_ids :
  (if is_draft then docs m_addProjectV2DraftIssue = true
   else docs q_labels = true ∧ docs m_createIssue = true ∧
        docs m_addProjectV2ItemById = true) →
  emits (calls token docs pause)
    (create_item token project_id is_draft repo repo_id title body labels assignee_ids).
Proof.
  intros Hd. unfold create_item, print. destruct is_draft.
  - calls_step; [by apply calls_create_draft|]. repeat calls_step.
  - destruct Hd as (H1 & H2 & H3).
    calls_step; [by apply calls_get_label_ids|].
    calls_step; [by apply calls_create_issue|].
    calls_step; [by apply calls_add_item_to_project|]. repeat calls_step.
Qed.

Lemma calls_get_project_and_fields owner number :
  docs q_user = true → docs q_org = true →
  emits (calls token docs pause) (get_project_and_fields token owner number).
Proof.
  intros H1 H2. unfold get_project_and_fields, lookup_user, lookup_org, print.
  calls_step; [repeat calls_step|].
  calls_step.
  { destruct (negb (truthy a)); repeat calls_step. }
  destruct a0 as [proj where_]. destruct (negb (truthy proj)); repeat calls_step.
Qed.

Lemma calls_get_repo_id repo_full :
  docs q_repository = true → emits (calls token docs pause) (get_repo_id token repo_full).
Proof.
  intros Hd. unfold get_repo_id. calls_step; [calls_step|]. destruct a as [owner name].
  repeat calls_step. destruct (negb (truthy a0)); calls_step.
Qed.

Lemma calls_time_sleep secs : emits (calls token docs true) (time_sleep secs).
Proof. unfold time_sleep. destruct (sleep_rejects secs); [apply emits_raise|]. by apply emits_emit. Qed.

End Calls.

Lemma calls_process_row token docs p (is_draft : bool) repo repo_id secs i r :
  docs q_login = true → docs m_updateProjectV2ItemFieldValue = true →
  (if is_draft then docs m_addProjectV2DraftIssue = true
   else docs q_labels = true ∧ docs m_createIssue = true ∧
        docs m_addProjectV2ItemById = true) →
  emits (calls token docs true) (process_row token p is_draft repo repo_id secs i r).
Proof.
  intros H1 H2 H3. unfold process_row, print_err.
  destruct (String.eqb _ ""); [by apply emits_emit|].
  apply emits_bind; [by apply calls_get_user_ids|]. intros ids.
  apply emits_bind; [by apply calls_create_item|]. intros item_id.
  apply emits_bind; [|intros _; apply calls_time_sleep].
  apply emits_for_each. intros col. by apply calls_set_column.
Qed.

(** In draft mode the run POSTs the two board lookups, the user lookups,
    the creation of drafts and the setting of fields, and nothing else: no
    call about a repository, its labels or its issues. In tracked mode it
    never creates a draft. In both, every POST carries the credential of
    the run. *)
Theorem run_calls_by_mode (a : args) w :
  ∃ evs, snd (main a w) = w ++ evs ∧
         Forall (calls (token_of a)
                   (if draft a then draft_documents else tracked_documents) true) evs.
Proof.
  assert (emits (calls (token_of a)
                   (if draft a then draft_documents else tracked_documents) true)
            (main a)) as Hem; [|apply Hem].
  unfold main, resolve_repo, process_rows, print_err.
  destruct (String.eqb (token_of a) "").
  { apply emits_bind; [by apply emits_emit|]. intros _. apply emits_raise. }
  apply emits_bind.
  { apply calls_get_project_and_fields; by destruct (draft a). }
  intros p. apply emits_bind.
  { destruct (draft a) eqn:Hdraft; simpl; [apply emits_ret|].
    destruct (String.eqb _ "").
    - apply emits_bind; [by apply emits_emit|]. intros _. apply emits_raise.
    - by apply calls_get_repo_id. }
  intros repo_id. apply emits_for_each. intros [i r]. simpl.
  apply calls_process_row; by destruct (draft a).
Qed.

(** ** Starting a run *)

(** Without a credential (no --token or an empty one, and no GITHUB_TOKEN or
    an empty one) the run prints the message and exits with 1 before any
    call. A --token that is not empty is the credential, whatever the
    environment holds. In tracked mode without --repo, the run exits with 1
    after looking the board up and before any row is read, and makes no
    call about a repository; a failure of the board lookup comes first. *)
Theorem run_start (a : args) w :
  (token_of a = "" →
     main a w = (Raise (SystemExit 1), w ++ [Stderr Err_token_missing])) ∧
  (token_of a = "" ↔
     (arg_token a = None ∨ arg_token a = Some "") ∧
     (env_GITHUB_TOKEN a = None ∨ env_GITHUB_TOKEN a = Some "")) ∧
  (∀ t, arg_token a = Some t → t ≠ "" → token_of a = t) ∧
  (token_of a ≠ "" → draft a = false → cell_or_empty (arg_repo a) = "" →
     main a w =
       match get_project_and_fields (token_of a) (project_owner a) (project_number a) w with
       | (Ok _, w1) => (Raise (SystemExit 1), w1 ++ [Stderr Err_repo_missing])
       | (Raise e, w1) => (Raise e, w1)
       end).
Proof.
  split; [|split; [|split]].
  - intros Ht. unfold main. by rewrite Ht.
  - unfold token_of, cell_or.
    destruct (arg_token a) as [[|c t]|]; destruct (env_GITHUB_TOKEN a) as [[|c' t']|];
      simpl; naive_solver.
  - intros t Ht Hne. unfold token_of, cell_or. rewrite Ht.
    apply String.eqb_neq in Hne. by rewrite Hne.
  - intros Ht Hdraft Hrepo. unfold main, resolve_repo.
    apply String.eqb_neq in Ht. rewrite Ht, Hdraft, Hrepo. simpl.
    rewrite bind_run. by destruct (get_project_and_fields _ _ _ w) as [[p|e] w1].
Qed.

(** ** One item per row *)

Lemma creation_posts_app evs evs' :
  creation_posts (evs ++ evs') = creation_posts evs ++ creation_posts evs'.
Proof. apply flat_map_app. Qed.

Lemma creation_posts_side token pause evs :
  Forall (calls token side_documents pause) evs → creation_posts evs = [].
Proof.
  induction 1 as [|ev evs Hev _ IH]; [done|].
  unfold creation_posts in *. cbn [flat_map]. rewrite IH, app_nil_r.
  destruct ev as [t q v o| | |]; try done.
  destruct Hev as [_ Hq]. by destruct q.
Qed.

Lemma create_issue_creation token repo_id title body label_ids assignee_ids w :
  ∃ evs, snd (create_issue token repo_id title body label_ids assignee_ids w) = w ++ evs ∧
         creation_posts evs = [m_createIssue].
Proof.
  unfold create_issue. rewrite bind_run, gql_run.
  destruct (payload_of _) as [d|e]; [|by eexists [_]].
  rewrite bind_run. unfold lift.
  destruct (getitem d "createIssue" ≫= _) as [issue|]; [|by eexists [_]].
  rewrite bind_run. destruct (getitem issue "number"); [|by eexists [_]].
  rewrite bind_run. destruct (getitem issue "url"); [|by eexists [_]].
  rewrite bind_run. unfold print, emit. rewrite <- app_assoc.
  by eexists [_; _].
Qed.

Lemma add_item_creation token project_id content_id w :
  ∃ evs, snd (add_item_to_project token project_id content_id w) = w ++ evs ∧
         creation_posts evs = [m_addProjectV2ItemById].
Proof.
  unfold add_item_to_project. rewrite bind_run, gql_run.
  destruct (payload_of _); by eexists [_].
Qed.

Lemma create_draft_creation token project_id title body assignee_ids w :
  ∃ evs, snd (create_draft_issue_and_item token project_id title body assignee_ids w)
           = w ++ evs ∧
         creation_posts evs = [m_addProjectV2DraftIssue].
Proof.
  unfold create_draft_issue_and_item. rewrite bind_run, gql_run.
  destruct (payload_of _); by eexists [_].
Qed.

(** The creation of the item of a row: one creation of a draft in draft
    mode; in tracked mode the creation of an issue, unless label resolution
    raised, and then the linking, unless the creation raised. *)
Lemma create_item_creation token project_id (is_draft : bool) repo repo_id title body
    labels assignee_ids w :
  ∃ evs,
    snd (create_item token project_id is_draft repo repo_id title body labels
           assignee_ids w) = w ++ evs ∧
    if is_draft then creation_posts evs = [m_addProjectV2DraftIssue]
    else
      (creation_posts evs = [m_createIssue; m_addProjectV2ItemById]) ∨
      ((creation_posts evs = [] ∨ creation_posts evs = [m_createIssue]) ∧
       ∃ e, fst (create_item token project_id is_draft repo repo_id title body labels
                   assignee_ids w) = Raise e).
Proof.
  unfold create_item. destruct is_draft.
  - rewrite bind_run.
    destruct (create_draft_creation token project_id title body assignee_ids w)
      as (evs & E & Hc).
    destruct (create_draft_issue_and_item _ _ _ _ _ w) as [[item_id|e] w1];
      simpl in E; subst w1; [|by exists evs].
    rewrite bind_run. unfold print, emit, ret. simpl.
    exists (evs ++ [Stdout (Draft_created item_id)]).
    split; [by rewrite app_assoc|]. by rewrite creation_posts_app, Hc.
  - rewrite bind_run.
    destruct (calls_get_label_ids token side_documents false repo labels eq_refl w)
      as (e1 & E1 & H1%creation_posts_side).
    destruct (get_label_ids token repo labels w) as [[label_ids|e] w1];
      simpl in E1; subst w1.
    2: { exists e1. split; [done|]. right. split; [by left|by exists e]. }
    rewrite bind_run.
    destruct (create_issue_creation token repo_id title body label_ids assignee_ids
                (w ++ e1)) as (e2 & E2 & H2).
    destruct (create_issue _ _ _ _ _ _ (w ++ e1)) as [[issue_id|e] w2];
      simpl in E2; subst w2.
    2: { exists (e1 ++ e2). split; [by rewrite app_assoc|]. right.
         rewrite creation_posts_app, H1, H2. split; [by right|by exists e]. }
    rewrite bind_run.
    destruct (add_item_creation token project_id issue_id ((w ++ e1) ++ e2))
      as (e3 & E3 & H3).
    destruct (add_item_to_project _ _ _ ((w ++ e1) ++ e2)) as [[item_id|e] w3];
      simpl in E3; subst w3.
    + rewrite bind_run. unfold print, emit, ret. simpl.
      exists (e1 ++ e2 ++ e3 ++ [Stdout (Item_added item_id)]).
      split; [by rewrite !app_assoc|]. left.
      by rewrite !creation_posts_app, H1, H2, H3.
    + exists (e1 ++ e2 ++ e3). split; [by rewrite !app_assoc|]. left.
      by rewrite !creation_posts_app, H1, H2, H3.
Qed.

(** A row asks for the creation of at most one item, and links it to the
    board at most once: in draft mode its creation calls are none or the
    one creation of a draft; in tracked mode none, or the creation of an
    issue, or that creation followed by the one linking. A row without a
    title makes none; a row with a title that returns has made them all. *)
Theorem one_item_per_row token p (is_draft : bool) repo repo_id secs i (r : row) w :
  ∃ evs,
    snd (process_row token p is_draft repo repo_id secs i r w) = w ++ evs ∧
    (cell_or_empty (row_title r) = "" → creation_posts evs = []) ∧
    (if is_draft
     then creation_posts evs = [] ∨ creation_posts evs = [m_addProjectV2DraftIssue]
     else creation_posts evs = [] ∨ creation_posts evs = [m_createIssue] ∨
          creation_posts evs = [m_createIssue; m_addProjectV2ItemById]) ∧
    (cell_or_empty (row_title r) ≠ "" →
     fst (process_row token p is_draft repo repo_id secs i r w) = Ok tt →
     creation_posts evs = if is_draft then [m_addProjectV2DraftIssue]
                          else [m_createIssue; m_addProjectV2ItemById]).
Proof.
  unfold process_row. destruct (String.eqb_spec (cell_or_empty (row_title r)) "") as [Ht|Ht].
  { exists [Stderr (Err_title_missing i)]. split; [done|]. split; [done|].
    split; [by destruct is_draft; left|done]. }
  rewrite bind_run.
  destruct (calls_get_user_ids token side_documents false (row_assignees r) eq_refl w)
    as (e1 & E1 & H1%creation_posts_side).
  destruct (get_user_ids token (row_assignees r) w) as [[ids|e] w1]; simpl in E1; subst w1.
  2: { exists e1. split; [done|]. split; [done|]. rewrite H1.
       split; [by destruct is_draft; left|done]. }
  rewrite bind_run.
  destruct (create_item_creation token (project_id p) is_draft repo repo_id
              (cell_or_empty (row_title r)) (row_body r) (row_labels r) ids (w ++ e1))
    as (e2 & E2 & H2).
  destruct (create_item _ _ _ _ _ _ _ _ _ (w ++ e1)) as [[item_id|e] w2];
    simpl in E2; subst w2.
  2: { exists (e1 ++ e2). split; [by rewrite app_assoc|]. split; [done|].
       rewrite creation_posts_app, H1. simpl.
       split; [|done]. destruct is_draft; [by right|].
       destruct H2 as [->|[[->| ->] _]]; auto. }
  assert (creation_posts e2 = if is_draft then [m_addProjectV2DraftIssue]
                              else [m_createIssue; m_addProjectV2ItemById]) as H2'.
  { destruct is_draft; [done|]. by destruct H2 as [?|[_ [e [=]]]]. }
  clear H2. rewrite bind_run.
  destruct (emits_for_each (calls token side_documents true) r
              (set_column token (project_id p) item_id (fields p))
              (λ col, calls_set_column token side_documents true (project_id p) item_id
                        (fields p) col eq_refl) ((w ++ e1) ++ e2))
    as (e3 & E3 & H3%creation_posts_side).
  destruct (for_each r _ ((w ++ e1) ++ e2)) as [[[]|e] w3]; simpl in E3; subst w3.
  - destruct (calls_time_sleep token side_documents secs (((w ++ e1) ++ e2) ++ e3))
      as (e4 & E4 & H4%creation_posts_side).
    exists (e1 ++ e2 ++ e3 ++ e4). rewrite E4. split; [by rewrite !app_assoc|].
    split; [done|]. rewrite !creation_posts_app, H1, H3, H4, app_nil_r. simpl.
    rewrite H2'. split; [|done]. destruct is_draft; auto.
  - exists (e1 ++ e2 ++ e3). split; [by rewrite !app_assoc|]. split; [done|].
    rewrite !creation_posts_app, H1, H3, app_nil_r. simpl.
    rewrite H2'. split; [|done]. destruct is_draft; auto.
Qed.

(** ** Pauses *)

Lemma pauses_app evs evs' : pauses (evs ++ evs') = pauses evs ++ pauses evs'.
Proof. apply flat_map_app. Qed.

Lemma pauses_none token docs evs :
  Forall (calls token docs false) evs → pauses evs = [].
Proof.
  induction 1 as [|ev evs Hev _ IH]; [done|].
  unfold pauses in *. cbn [flat_map]. rewrite IH, app_nil_r.
  by destruct ev.
Qed.

Lemma process_row_pauses token p (is_draft : bool) repo repo_id secs i (r : row) w :
  ∃ evs,
    snd (process_row token p is_draft repo repo_id secs i r w) = w ++ evs ∧
    (has_title r = false → pauses evs = []) ∧
    (pauses evs = [] ∨ ∃ evs', evs = evs' ++ [Sleep secs] ∧ pauses evs' = []) ∧
    (has_title r = true →
     fst (process_row token p is_draft repo repo_id secs i r w) = Ok tt →
     ∃ evs', evs = evs' ++ [Sleep secs] ∧ pauses evs' = []).
Proof.
  unfold process_row, has_title.
  destruct (String.eqb (cell_or_empty (row_title r)) "").
  { exists [Stderr (Err_title_missing i)]. split; [done|]. split; [done|].
    split; [by left|done]. }
  assert (emits (calls token (λ _, true) false)
            (assignee_ids ← get_user_ids token (row_assignees r);
             item_id ← create_item token (project_id p) is_draft repo repo_id
                         (cell_or_empty (row_title r)) (row_body r) (row_labels r)
                         assignee_ids;
             for_each r (set_column token (project_id p) item_id (fields p))))
    as Hquiet.
  { apply emits_bind; [by apply calls_get_user_ids|]. intros ids.
    apply emits_bind; [apply calls_create_item; by destruct is_draft|]. intros item_id.
    apply emits_for_each. intros col. by apply calls_set_column. }
  destruct (Hquiet w) as (e1 & E1 & H1%pauses_none).
  rewrite !bind_run in *.
  destruct (get_user_ids token (row_assignees r) w) as [[ids|e] w1].
  2: { exists e1. split; [done|]. split; [done|]. split; [by left|done]. }
  rewrite !bind_run in *.
  destruct (create_item _ _ _ _ _ _ _ _ _ w1) as [[item_id|e] w2].
  2: { exists e1. split; [done|]. split; [done|]. split; [by left|done]. }
  rewrite !bind_run in *.
  destruct (for_each r _ w2) as [[[]|e] w3]; simpl in E1; subst w3.
  2: { exists e1. split; [done|]. split; [done|]. split; [by left|done]. }
  unfold time_sleep. destruct (sleep_rejects secs) as [e|].
  - exists e1. split; [done|]. split; [done|]. split; [by left|done].
  - exists (e1 ++ [Sleep secs]). split; [by rewrite app_assoc|]. split; [done|].
    split; [right|intros _ _]; by exists e1.
Qed.

(** A row that returns with its item ends with one pause, of the delay
    given, and a row never pauses before its end nor twice; a row without
    a title does not pause. So a run pauses at most once per row with a
    title, each time for [args.rate_sleep]. *)
Theorem one_pause_per_row (a : args) (p : project) (repo_id : value) :
  (∀ i r w, ∃ evs,
     snd (process_row (token_of a) p (draft a) (cell_or_empty (arg_repo a)) repo_id
            (rate_sleep a) i r w) = w ++ evs ∧
     (has_title r = false → pauses evs = []) ∧
     (pauses evs = [] ∨ ∃ evs', evs = evs' ++ [Sleep (rate_sleep a)] ∧ pauses evs' = []) ∧
     (has_title r = true →
      fst (process_row (token_of a) p (draft a) (cell_or_empty (arg_repo a)) repo_id
             (rate_sleep a) i r w) = Ok tt →
      ∃ evs', evs = evs' ++ [Sleep (rate_sleep a)] ∧ pauses evs' = [])) ∧
  (∀ i rows w, ∃ evs,
     snd (process_rows a p repo_id i rows w) = w ++ evs ∧
     Forall (λ secs, secs = rate_sleep a) (pauses evs) ∧
     (length (pauses evs) ≤ length (List.filter has_title rows))%nat).
Proof.
  split; [intros i r w; apply process_row_pauses|].
  intros i rows. revert i. unfold process_rows.
  induction rows as [|r rows IH]; intros i w; simpl.
  { exists []. by rewrite app_nil_r. }
  rewrite bind_run.
  destruct (process_row_pauses (token_of a) p (draft a) (cell_or_empty (arg_repo a))
              repo_id (rate_sleep a) i r w) as (e1 & E1 & Hno & Hmost & _).
  assert (Forall (λ secs, secs = rate_sleep a) (pauses e1) ∧
          (length (pauses e1) ≤ length (List.filter has_title [r]))%nat) as [Hall Hlen].
  { simpl. destruct (has_title r).
    - destruct Hmost as [->|(evs' & -> & Hp)]; [by split; [|simpl; lia]|].
      rewrite pauses_app, Hp. simpl. split; [by repeat constructor|lia].
    - by rewrite Hno. }
  destruct (process_row _ _ _ _ _ _ i r w) as [[[]|e] w1]; simpl in E1; subst w1.
  - destruct (IH (i + 1) (w ++ e1)) as (e2 & E2 & Hall2 & Hlen2).
    exists (e1 ++ e2). rewrite E2. split; [by rewrite app_assoc|].
    rewrite pauses_app. split; [by apply Forall_app|].
    rewrite length_app. simpl in *. destruct (has_title r); simpl in *; lia.
  - exists e1. split; [done|]. split; [done|].
    simpl in *. destruct (has_title r); simpl in *; lia.
Qed.

(** ** Setting the fields of a row *)

Lemma update_field_log token project_id item_id field_id data_type v opts w :
  ∃ evs,
    snd (update_field token project_id item_id field_id data_type v opts w) = w ++ evs ∧
    (evs = [] ∨ (∃ l, evs = [Stderr l]) ∨
     ∃ val,
       evs = [Post token m_updateProjectV2ItemFieldValue
                (PyDict [("input", PyDict [("projectId", project_id); ("itemId", item_id);
                                           ("fieldId", field_id); ("value", val)])])
                (requests_post w token m_updateProjectV2ItemFieldValue
                   (PyDict [("input", PyDict [("projectId", project_id);
                                              ("itemId", item_id);
                                              ("fieldId", field_id); ("value", val)])]))] ∧
       fst (update_field token project_id item_id field_id data_type v opts w)
         = payload_of (requests_post w token m_updateProjectV2ItemFieldValue
                         (PyDict [("input", PyDict [("projectId", project_id);
                                                    ("itemId", item_id);
                                                    ("fieldId", field_id);
                                                    ("value", val)])]))
           ≫= λ _, Ok tt).
Proof.
  assert (∀ val, ∃ evs,
    snd (submit_value token project_id item_id field_id val w) = w ++ evs ∧
    (evs = [] ∨ (∃ l, evs = [Stderr l]) ∨
     ∃ val',
       evs = [Post token m_updateProjectV2ItemFieldValue
                (PyDict [("input", PyDict [("projectId", project_id); ("itemId", item_id);
                                           ("fieldId", field_id); ("value", val')])])
                (requests_post w token m_updateProjectV2ItemFieldValue
                   (PyDict [("input", PyDict [("projectId", project_id);
                                              ("itemId", item_id);
                                              ("fieldId", field_id); ("value", val')])]))] ∧
       fst (submit_value token project_id item_id field_id val w)
         = payload_of (requests_post w token m_updateProjectV2ItemFieldValue
                         (PyDict [("input", PyDict [("projectId", project_id);
                                                    ("itemId", item_id);
                                                    ("fieldId", field_id);
                                                    ("value", val')])]))
           ≫= λ _, Ok tt)) as Hsub.
  { intros val. unfold submit_value. rewrite bind_run, gql_run.
    eexists. split; [by destruct (payload_of _)|].
    right. right. exists val. split; [done|]. by destruct (payload_of _). }
  unfold update_field.
  destruct (eq_str data_type "TEXT"); [apply Hsub|].
  destruct (eq_str data_type "NUMBER").
  { destruct (float_of_str v); [apply Hsub|].
    exists [Stderr (Warn_number_ignored v)]. split; [done|]. right. left. by eexists. }
  destruct (eq_str data_type "DATE"); [apply Hsub|].
  destruct (eq_str data_type "SINGLE_SELECT").
  2: { exists [Stderr (Info_type_unsupported data_type)]. split; [done|].
       right. left. by eexists. }
  destruct (negb (truthy opts)).
  { exists [Stderr Warn_select_without_options]. split; [done|]. right. left. by eexists. }
  rewrite bind_run. unfold lift.
  destruct (iterate opts ≫= _) as [opt|e].
  2: { exists []. rewrite app_nil_r. split; [done|]. by left. }
  destruct (negb (truthy opt)).
  { exists [Stderr (Warn_select_unknown_option v)]. split; [done|]. right. left.
    by eexists. }
  rewrite bind_run. destruct (getitem opt "id") as [id|e]; [apply Hsub|].
  exists []. rewrite app_nil_r. split; [done|]. by left.
Qed.

(** Whatever the kind and the text, [update_field] does at most one POST, the
    mutation on the project, item and field given, and then returns exactly
    when the call does (what the answer holds is not read). On a field of
    kind TEXT or DATE it does exactly that one POST, whose value is the text
    as it is, under "text" or "date"; the request is sent unless an
    identifier cannot be serialised. A kind that is none of TEXT, NUMBER,
    DATE and SINGLE_SELECT, in this spelling, is left with a notice: no POST,
    nothing raised. *)
Theorem update_field_kinds token project_id item_id field_id v opts w :
  (∀ data_type, ∃ evs,
     snd (update_field token project_id item_id field_id data_type v opts w) = w ++ evs ∧
     (evs = [] ∨ (∃ l, evs = [Stderr l]) ∨
      ∃ val,
        evs = [Post token m_updateProjectV2ItemFieldValue
                 (PyDict [("input", PyDict [("projectId", project_id);
                                            ("itemId", item_id);
                                            ("fieldId", field_id); ("value", val)])])
                 (requests_post w token m_updateProjectV2ItemFieldValue
                    (PyDict [("input", PyDict [("projectId", project_id);
                                               ("itemId", item_id);
                                               ("fieldId", field_id); ("value", val)])]))] ∧
        fst (update_field token project_id item_id field_id data_type v opts w)
          = payload_of (requests_post w token m_updateProjectV2ItemFieldValue
                          (PyDict [("input", PyDict [("projectId", project_id);
                                                     ("itemId", item_id);
                                                     ("fieldId", field_id);
                                                     ("value", val)])]))
            ≫= λ _, Ok tt)) ∧
  (let variables :=
     PyDict [("input", PyDict [("projectId", project_id);
                               ("itemId", item_id);
                               ("fieldId", field_id);
                               ("value", PyDict [("text", PyStr v)])])] in
   let o := requests_post w token m_updateProjectV2ItemFieldValue variables in
   update_field token project_id item_id field_id (PyStr "TEXT") v opts w
     = (payload_of o ≫= (λ _, Ok tt),
        w ++ [Post token m_updateProjectV2ItemFieldValue variables o]) ∧
   (o = Refused ↔
    serialisable project_id && serialisable item_id && serialisable field_id = false)) ∧
  (let variables :=
     PyDict [("input", PyDict [("projectId", project_id);
                               ("itemId", item_id);
                               ("fieldId", field_id);
                               ("value", PyDict [("date", PyStr v)])])] in
   let o := requests_post w token m_updateProjectV2ItemFieldValue variables in
   update_field token project_id item_id field_id (PyStr "DATE") v opts w
     = (payload_of o ≫= (λ _, Ok tt),
        w ++ [Post token m_updateProjectV2ItemFieldValue variables o]) ∧
   (o = Refused ↔
    serialisable project_id && serialisable item_id && serialisable field_id = false)) ∧
  (∀ data_type,
     data_type ≠ PyStr "TEXT" → data_type ≠ PyStr "NUMBER" →
     data_type ≠ PyStr "DATE" → data_type ≠ PyStr "SINGLE_SELECT" →
     update_field token project_id item_id field_id data_type v opts w
       = (Ok tt, w ++ [Stderr (Info_type_unsupported data_type)])).
Proof.
  split; [intros data_type; apply update_field_log|].
  split; [|split].
  1, 2: cbv zeta; split;
    [apply submit_value_run
    |rewrite requests_post_refused; simpl; by rewrite !andb_true_r, !andb_assoc].
  intros data_type H1 H2 H3 H4. unfold update_field.
  assert (∀ k, data_type ≠ PyStr k → eq_str data_type k = false) as Hne.
  { intros k Hk. destruct data_type; try done. simpl.
    apply String.eqb_neq. congruence. }
  by rewrite !Hne.
Qed.

Lemma posts_app evs evs' : posts (evs ++ evs') = posts evs ++ posts evs'.
Proof. apply List.filter_app. Qed.

Lemma set_column_log token project_id item_id project_fields col w :
  ∃ evs,
    snd (set_column token project_id item_id project_fields col w) = w ++ evs ∧
    Forall (sets_field token project_id item_id project_fields) evs ∧
    (length (posts evs) ≤ if is_field_column project_fields col then 1 else 0)%nat.
Proof.
  destruct (is_field_column project_fields col) eqn:Hcol.
  2: { rewrite set_column_other by done. exists []. by rewrite app_nil_r. }
  destruct col as [col_name [s|]].
  2: { unfold is_field_column in Hcol. simpl in Hcol. by destruct (reserved col_name). }
  destruct (set_column_field token project_id item_id _ _ _ Hcol) as (f & Hf & ->).
  unfold try_except.
  destruct (update_field_log token project_id item_id (field_id f) (dataType f)
              (str_strip s) (options_for f) w) as (evs & E & Hevs).
  assert (Forall (sets_field token project_id item_id project_fields) evs ∧
          (length (posts evs) ≤ 1)%nat) as [Hall Hlen].
  { destruct Hevs as [->|[[l ->]|(val & -> & _)]]; [by split; [|simpl; lia]| |].
    - split; [by repeat constructor|simpl; lia].
    - split; [|simpl; lia]. apply Forall_cons. split; [|constructor].
      simpl. split; [done|]. split; [done|]. by exists col_name, f, val. }
  destruct (update_field _ _ _ _ _ _ _ w) as [[[]|e] w1]; simpl in E; subst w1.
  - by exists evs.
  - destruct (is_Exception e); [|by exists evs].
    exists (evs ++ [Stderr (Warn_field_not_set col_name (Some s) e)]).
    split; [by rewrite app_assoc|]. split.
    + apply Forall_app. split; [done|]. by repeat constructor.
    + rewrite posts_app, length_app. simpl. lia.
Qed.

(** The loop over the columns of a row POSTs nothing but the mutation that
    sets a field of the board on the item of the row, with the credential of
    the run, and at most once per column that names a field and has a cell
    that is not blank. *)
Theorem field_updates_bounded token project_id item_id project_fields (r : row) w :
  ∃ evs,
    snd (for_each r (set_column token project_id item_id project_fields) w) = w ++ evs ∧
    Forall (sets_field token project_id item_id project_fields) evs ∧
    (length (posts evs) ≤ length (List.filter (is_field_column project_fields) r))%nat.
Proof.
  revert w. induction r as [|col r IH]; intros w; simpl.
  { exists []. by rewrite app_nil_r. }
  rewrite bind_run.
  destruct (set_column_log token project_id item_id project_fields col w)
    as (e1 & E1 & H1 & L1).
  destruct (set_column _ _ _ _ col w) as [[[]|e] w1]; simpl in E1; subst w1.
  - destruct (IH (w ++ e1)) as (e2 & E2 & H2 & L2).
    exists (e1 ++ e2). rewrite E2. split; [by rewrite app_assoc|].
    split; [by apply Forall_app|].
    rewrite posts_app, length_app.
    destruct (is_field_column project_fields col); simpl; lia.
  - exists e1. split; [done|]. split; [done|].
    destruct (is_field_column project_fields col); simpl; lia.
Qed.

(** ** What a call raises *)


(** ** The repository *)

Lemma split_once_app sep a b :
  has_char sep a = false → split_once sep (a +:+ String sep b) = (a, Some b).
Proof.
  induction a as [|c a IH]; simpl.
  - intros _. change ("" +:+ String sep b) with (String sep b). simpl.
    by rewrite Ascii.eqb_refl.
  - intros [Hc Ha]%orb_false_iff. by rewrite Hc, (IH Ha).
Qed.

Lemma split_once_none sep s :
  has_char sep s = false → split_once sep s = (s, None).
Proof.
  induction s as [|c s IH]; simpl; [done|].
  intros [Hc Hs]%orb_false_iff. by rewrite Hc, (IH Hs).
Qed.

Lemma split_once_some sep s a b :
  split_once sep s = (a, Some b) → s = a +:+ String sep b ∧ has_char sep a = false.
Proof.
  revert a. induction s as [|c s IH]; intros a; simpl; [done|].
  destruct (Ascii.eqb_spec c sep) as [->|Hne].
  - by intros [= <- <-].
  - destruct (split_once sep s) as [a' b'] eqn:E. intros [= <- ->].
    destruct (IH a' eq_refl) as [-> Ha]. split; [done|]. simpl.
    rewrite Ha. by apply Ascii.eqb_neq in Hne as ->.
Qed.

(** A repository path without a slash raises [ValueError] before any call.
    A path is split at its first slash only: the owner is what stands
    before it, the name all that follows. Then there is one POST, for that
    owner and name; when the answer has no repository the failure names the
    whole path, otherwise the result is the "id" of the repository. *)
Theorem get_repo_id_contract token repo_full w :
  (has_char "/" repo_full = false →
     get_repo_id token repo_full w = (Raise ValueError, w)) ∧
  (has_char "/" repo_full = true →
     ∃ owner name, repo_full = owner +:+ "/" +:+ name ∧ has_char "/" owner = false) ∧
  (∀ owner name, repo_full = owner +:+ "/" +:+ name → has_char "/" owner = false →
     snd (get_repo_id token repo_full w)
       = w ++ [Post token q_repository
                 (PyDict [("owner", PyStr owner); ("name", PyStr name)])
                 (requests_post w token q_repository
                    (PyDict [("owner", PyStr owner); ("name", PyStr name)]))] ∧
     (∀ e, payload_of (requests_post w token q_repository
                         (PyDict [("owner", PyStr owner); ("name", PyStr name)])) = Raise e →
        fst (get_repo_id token repo_full w) = Raise e) ∧
     (∀ d repo,
        payload_of (requests_post w token q_repository
                      (PyDict [("owner", PyStr owner); ("name", PyStr name)])) = Ok d →
        getitem d "repository" = Ok repo →
        fst (get_repo_id token repo_full w)
          = if truthy repo then getitem repo "id"
            else Raise (RuntimeError (Repository_not_found repo_full)))).
Proof.
  split; [|split].
  - intros Hno. unfold get_repo_id, split_repo. rewrite bind_run. unfold lift.
    by rewrite (split_once_none _ _ Hno).
  - intros Hyes. destruct (split_once "/" repo_full) as [owner [name|]] eqn:E.
    + apply split_once_some in E as [-> Ho]. by exists owner, name.
    + assert (has_char "/" repo_full = false) as Hno; [|congruence].
      clear Hyes. revert owner E. induction repo_full as [|c s IH]; intros owner; [done|].
      simpl. destruct (Ascii.eqb c "/"); [done|].
      destruct (split_once "/" s) as [a' [b'|]] eqn:E'; [done|].
      intros _. simpl. by apply (IH a').
  - intros owner name -> Ho. unfold get_repo_id, split_repo.
    rewrite bind_run. unfold lift.
    change (owner +:+ "/" +:+ name) with (owner +:+ String "/" name).
    rewrite (split_once_app _ _ _ Ho). rewrite bind_run, gql_run.
    destruct (payload_of _) as [d|e].
    2: { split; [done|]. split; [by intros ? [= <-]|done]. }
    rewrite bind_run. destruct (getitem d "repository") as [repo|e] eqn:Hrepo.
    2: { split; [done|]. split; [done|]. intros d' repo' [= <-] Hr. congruence. }
    split; [by destruct (truthy repo)|]. split; [done|].
    intros d' repo' [= <-] Hr. rewrite Hrepo in Hr. injection Hr as <-.
    by destruct (truthy repo).
Qed.

(** ** The users *)






(** ** The names of the fields *)

Lemma add_node_spec node m m' :
  add_node node m = Ok m' →
  (∃ k f, dict_get node "name" = Ok (PyStr k) ∧ k ≠ "" ∧ m' = <[k := f]> m) ∨
  (m' = m ∧ ∀ k, k ≠ "" → dict_get node "name" ≠ Ok (PyStr k)).
Proof.
  unfold add_node. destruct (truthy node) eqn:Hnode; simpl.
  2: { intros [= <-]. right. split; [done|]. intros k Hk.
       destruct node; try done. by destruct items. }
  destruct (dict_get node "name") as [name|] eqn:Hname; [|done]. simpl.
  destruct (truthy name) eqn:Ht; simpl.
  2: { intros [= <-]. right. split; [done|]. intros k Hk [= ->]. simpl in Ht.
       apply negb_false_iff, String.eqb_eq in Ht. done. }
  destruct (node_field node) as [f|] eqn:Hf; [|done]. simpl.
  apply node_field_name in Hf. rewrite Hname in Hf. injection Hf as <-.
  unfold setitem. destruct name; try (intros [= <-]; right; split; [done|]; congruence);
    [|done..].
  intros [= <-]. left. exists s, f. split; [done|]. split; [|done].
  intros ->. done.
Qed.

Lemma add_nodes_names nodes m m' k :
  add_nodes nodes m = Ok m' →
  is_Some (m' !! k) ↔
  is_Some (m !! k) ∨ (k ≠ "" ∧ ∃ node, node ∈ nodes ∧ dict_get node "name" = Ok (PyStr k)).
Proof.
  revert m. induction nodes as [|node nodes IH]; intros m; simpl.
  - intros [= <-]. split; [by left|]. intros [?|(_ & node & Hin & _)]; [done|].
    by apply elem_of_nil in Hin.
  - destruct (add_node node m) as [m1|] eqn:E; [|done]. simpl. intros Hrest.
    rewrite (IH _ Hrest).
    apply add_node_spec in E as [(k0 & f & Hname & Hk0 & ->)|[-> Hnone]].
    + rewrite lookup_insert_is_Some. split.
      * intros [[->|[_ Hm]]|(Hk & n & Hin & Hn)].
        -- right. split; [done|]. exists node. split; [apply list_elem_of_here|done].
        -- by left.
        -- right. split; [done|]. exists n. split; [by apply list_elem_of_further|done].
      * intros [Hm|(Hk & n & Hin & Hn)].
        -- left. destruct (decide (k0 = k)); [by left|by right].
        -- apply elem_of_cons in Hin as [->|Hin].
           ++ left. left. congruence.
           ++ right. split; [done|]. by exists n.
    + split.
      * intros [Hm|(Hk & n & Hin & Hn)]; [by left|].
        right. split; [done|]. exists n. split; [by apply list_elem_of_further|done].
      * intros [Hm|(Hk & n & Hin & Hn)]; [by left|].
        apply elem_of_cons in Hin as [->|Hin]; [by destruct (Hnone k Hk)|].
        right. split; [done|]. by exists n.
Qed.

(** The names the field map knows are exactly the names of the nodes of the
    field list that are strings and not empty: every such field can be set
    from a column, and a node that is null, or has no name or an empty one,
    gives no entry. *)
Theorem field_names_of_board proj p :
  project_of proj = Ok p →
  ∃ nodes, field_nodes proj = Ok nodes ∧
    ∀ k, is_Some (fields p !! k) ↔
         k ≠ "" ∧ ∃ node, node ∈ nodes ∧ dict_get node "name" = Ok (PyStr k).
Proof.
  unfold project_of. destruct (field_nodes proj) as [nodes|]; [|done]. simpl.
  destruct (add_nodes nodes ∅) as [m|] eqn:Hm; [|done]. simpl.
  destruct (getitem proj "id"); [|done]. simpl. intros [= <-]. simpl.
  exists nodes. split; [done|]. intros k.
  rewrite (add_nodes_names _ _ _ k Hm), lookup_empty.
  split; [intros [[? [=]]|?]; done|by right].
Qed.

(** ** The rows in order *)

Lemma enumerate_app {A : Type} i (xs ys : list A) :
  enumerate i (xs ++ ys) = enumerate i xs ++ enumerate (i + Z.of_nat (length xs)) ys.
Proof.
  revert i. induction xs as [|x xs IH]; intros i; simpl.
  - by rewrite Z.add_0_r.
  - rewrite IH. do 3 f_equal. lia.
Qed.

Lemma for_each_app {A : Type} (xs ys : list A) (body : A → M unit) w :
  for_each (xs ++ ys) body w =
    match for_each xs body w with
    | (Ok _, w1) => for_each ys body w1
    | (Raise e, w1) => (Raise e, w1)
    end.
Proof.
  revert w. induction xs as [|x xs IH]; intros w; simpl; [done|].
  rewrite !bind_run. destruct (body x w) as [[[]|e] w1]; [apply IH|done].
Qed.

(** The rows are processed in the order of the file, and a row is numbered
    by its place in it, rows without a title counted: the rows of a file
    made of two parts are those of the first part, then, unless one of them
    raised, those of the second, numbered on from the first. A part in which
    no row has a title gives one report per row, with these numbers, and
    nothing else. *)
Theorem rows_in_order (a : args) (p : project) (repo_id : value) i w :
  (∀ rows rows',
     process_rows a p repo_id i (rows ++ rows') w =
       match process_rows a p repo_id i rows w with
       | (Ok _, w1) => process_rows a p repo_id (i + Z.of_nat (length rows)) rows' w1
       | (Raise e, w1) => (Raise e, w1)
       end) ∧
  (∀ rows, Forall (λ r, has_title r = false) rows →
     process_rows a p repo_id i rows w = (Ok tt, w ++ title_reports i (length rows))).
Proof.
  split.
  - intros rows rows'. unfold process_rows. by rewrite enumerate_app, for_each_app.
  - intros rows Hall. revert i w. unfold process_rows.
    induction Hall as [|r rows Hr _ IH]; intros i w; simpl.
    { by rewrite app_nil_r. }
    rewrite bind_run. unfold process_row. unfold has_title in Hr.
    apply negb_false_iff in Hr. rewrite Hr. simpl.
    rewrite IH. by rewrite <- app_assoc.
Qed.

(** ** The creation of an issue *)

Lemma str_or_empty_id s : str_or_empty s = s.
Proof. unfold str_or_empty. by destruct (String.eqb_spec s "") as [->|]. Qed.

(** [create_issue] sends the title and the body as they are. When the call
    raises, nothing is printed. When the answer carries an issue with its
    "number" and "url", the confirmation line with both is printed and the
    result is the "id" of the issue; the line is printed before the "id" is
    read, so an issue without "id" raises [KeyError] after it. *)
Theorem create_issue_result token repo_id title body label_ids assignee_ids w :
  let variables :=
    PyDict [("input", PyDict [("repositoryId", repo_id);
                              ("title", PyStr title);
                              ("body", PyStr body);
                              ("labelIds", list_or_None label_ids);
                              ("assigneeIds", list_or_None assignee_ids)])] in
  let o := requests_post w token m_createIssue variables in
  (∀ e, payload_of o = Raise e →
     create_issue token repo_id title body label_ids assignee_ids w
       = (Raise e, w ++ [Post token m_createIssue variables o])) ∧
  (∀ d c issue number url,
     payload_of o = Ok d → getitem d "createIssue" = Ok c → getitem c "issue" = Ok issue →
     getitem issue "number" = Ok number → getitem issue "url" = Ok url →
     create_issue token repo_id title body label_ids assignee_ids w
       = (getitem issue "id",
          w ++ [Post token m_createIssue variables o; Stdout (Issue_created number url)])).
Proof.
  intros variables o. unfold create_issue. rewrite str_or_empty_id.
  fold variables. rewrite bind_run, gql_run. fold o. split.
  - by intros e ->.
  - intros d c issue number url -> Hc Hi Hn Hu.
    rewrite bind_run. unfold lift. simpl. rewrite Hc. simpl. rewrite Hi.
    rewrite bind_run, Hn, bind_run, Hu, bind_run.
    unfold print, emit. by rewrite <- app_assoc.
Qed.

(** ** The names of a cell *)

Lemma split_on_cons sep c s :
  split_on sep (String c s) =
    if Ascii.eqb c sep then "" :: split_on sep s
    else match split_on sep s with
         | [] => [String c ""]
         | x :: xs => String c x :: xs
         end.
Proof. reflexivity. Qed.

Lemma join_cons sep x parts :
  parts ≠ [] → join sep (x :: parts) = x +:+ sep +:+ join sep parts.
Proof. by destruct parts. Qed.

Lemma split_on_spec sep s :
  join (String sep "") (split_on sep s) = s ∧
  Forall (λ x, has_char sep x = false) (split_on sep s) ∧
  split_on sep s ≠ [].
Proof.
  induction s as [|c s (IHj & IHc & IHn)]; [by repeat constructor|].
  rewrite split_on_cons. destruct (Ascii.eqb_spec c sep) as [->|Hne].
  - split; [|split; [by constructor|done]].
    by rewrite join_cons, IHj.
  - destruct (split_on sep s) as [|x xs]; [done|].
    apply Forall_cons in IHc as [Hx Hxs]. split; [|split; [|done]].
    + destruct xs as [|y xs]; [by simpl in *; subst|].
      rewrite join_cons in IHj by done. rewrite join_cons by done.
      by rewrite append_cons, IHj.
    + constructor; [|done]. simpl. rewrite Hx. by apply Ascii.eqb_neq in Hne as ->.
Qed.

Lemma split_on_piece sep x rest :
  has_char sep x = false →
  split_on sep (x +:+ String sep rest) = x :: split_on sep rest.
Proof.
  induction x as [|c x IH].
  - intros _. change ("" +:+ String sep rest) with (String sep rest).
    rewrite split_on_cons. by rewrite Ascii.eqb_refl.
  - intros H. simpl in H. apply orb_false_iff in H as [Hc Hx].
    by rewrite append_cons, split_on_cons, Hc, (IH Hx).
Qed.

Lemma split_on_last sep x :
  has_char sep x = false → split_on sep x = [x].
Proof.
  induction x as [|c x IH]; simpl; [done|].
  intros [Hc Hx]%orb_false_iff. by rewrite Hc, (IH Hx).
Qed.

Lemma split_on_join sep parts :
  parts ≠ [] → Forall (λ x, has_char sep x = false) parts →
  split_on sep (join (String sep "") parts) = parts.
Proof.
  intros Hne Hall. induction Hall as [|x parts Hx Hparts IH]; [done|].
  destruct parts as [|y parts]; [by apply split_on_last|].
  rewrite join_cons by done.
  change (String sep "" +:+ join (String sep "") (y :: parts))
    with (String sep (join (String sep "") (y :: parts))).
  rewrite split_on_piece by done. by rewrite IH.
Qed.

(** The names of a cell: none for an empty cell; otherwise its pieces
    between commas, each stripped. *)
Lemma split_names_spec (raw : string) :
  split_names "" = [] ∧
  (raw ≠ "" →
     ∃ pieces, split_names raw = map str_strip pieces ∧
               join "," pieces = raw ∧
               Forall (λ x, has_char "," x = false) pieces ∧ pieces ≠ []) ∧
  (∀ parts, parts ≠ [] → Forall (λ x, has_char "," x = false) parts →
     join "," parts = raw → raw ≠ "" → split_names raw = map str_strip parts).
Proof.
  split; [done|]. split.
  - intros Hne. unfold split_names. apply String.eqb_neq in Hne. rewrite Hne.
    exists (split_on "," raw). split; [done|]. apply split_on_spec.
  - intros parts Hne Hall <- Hraw. unfold split_names.
    apply String.eqb_neq in Hraw. rewrite Hraw.
    by rewrite (split_on_join "," parts Hne Hall).
Qed.

(** [s.lstrip("@")] takes the leading "@" off, all of them and nothing
    else. *)
Lemma lstrip_at_spec (s : string) :
  ∃ n, s = at_signs n +:+ lstrip_at s ∧ ∀ rest, lstrip_at s ≠ String "@" rest.
Proof.
  induction s as [|c s (n & Hs & Hrest)]; [by exists O|].
  destruct (ascii_dec c "@") as [->|Hc].
  - exists (S n). split; [|exact Hrest].
    change (lstrip_at (String "@" s)) with (lstrip_at s).
    change (at_signs (S n) +:+ lstrip_at s) with (String "@" (at_signs n +:+ lstrip_at s)).
    by rewrite <- Hs.
  - assert (lstrip_at (String c s) = String c s) as ->.
    { by destruct c as [[] [] [] [] [] [] [] []]. }
    exists O. split; [done|]. intros rest [= ? _]. done.
Qed.

(** The names of a row (lines 290-294). The labels are read from the cell
    "Labels", or "labels" when that one is missing or empty, the assignees
    from "Assignees" or "assignees". An empty cell gives no names. Otherwise
    the names are the pieces between the commas of the cell, in their order
    and one more than there are commas (joined with commas the pieces are
    the cell, and no piece holds a comma): each piece stripped for a label,
    and each piece stripped and then without its leading "@" signs for an
    assignee. Conversely a cell made by joining pieces without commas gives
    the names of these pieces. Taking the leading "@" off takes them all off
    and nothing else; it comes after the stripping, so what follows them is
    kept as it is. *)
Theorem names_of_cell (r : row) :
  let labels := names_cell r "Labels" "labels" in
  let assignees := names_cell r "Assignees" "assignees" in
  (labels = "" → row_labels r = []) ∧
  (assignees = "" → row_assignees r = []) ∧
  (labels ≠ "" →
     ∃ pieces, row_labels r = map str_strip pieces ∧
               join "," pieces = labels ∧
               Forall (λ x, has_char "," x = false) pieces ∧ pieces ≠ []) ∧
  (assignees ≠ "" →
     ∃ pieces, row_assignees r = map (λ x, lstrip_at (str_strip x)) pieces ∧
               join "," pieces = assignees ∧
               Forall (λ x, has_char "," x = false) pieces ∧ pieces ≠ []) ∧
  (∀ parts, parts ≠ [] → Forall (λ x, has_char "," x = false) parts →
     join "," parts = labels → labels ≠ "" → row_labels r = map str_strip parts) ∧
  (∀ parts, parts ≠ [] → Forall (λ x, has_char "," x = false) parts →
     join "," parts = assignees → assignees ≠ "" →
     row_assignees r = map (λ x, lstrip_at (str_strip x)) parts) ∧
  (∀ s, ∃ n, s = at_signs n +:+ lstrip_at s ∧ ∀ rest, lstrip_at s ≠ String "@" rest).
Proof.
  intros labels assignees.
  change (row_labels r) with (split_names labels).
  change (row_assignees r) with (map lstrip_at (split_names assignees)).
  destruct (split_names_spec labels) as (_ & Hl & Hl').
  destruct (split_names_spec assignees) as (_ & Ha & Ha').
  split; [by intros ->|]. split; [by intros ->|]. split; [exact Hl|].
  split; [|split; [exact Hl'|split; [|exact lstrip_at_spec]]].
  - intros Hne. destruct (Ha Hne) as (pieces & -> & Hrest).
    exists pieces. by rewrite map_map.
  - intros parts H1 H2 H3 H4. by rewrite (Ha' parts H1 H2 H3 H4), map_map.
Qed.

End Further.

(** * The further properties at work *)

Section FurtherRuns.
Import Examples.

(** An empty --token and no GITHUB_TOKEN: the run exits at once. *)
Lemma run_start_witness :
  main (builtins := ascii_builtins) (remote := tracked_service) no_token_args []
    = (Raise (SystemExit 1), [Stderr Err_token_missing]).
Proof.
  exact (proj1 (run_start (builtins := ascii_builtins) (remote := tracked_service)
                  no_token_args []) eq_refl).
Defined.

(** A row in tracked mode: one creation of an issue, then one linking. *)
Lemma one_item_per_row_witness :
  ∃ evs,
    snd (process_row (builtins := ascii_builtins) (remote := users_service)
           "tok" bare_project false "o/r" (PyStr "R1") 0.25%float 1
           [("Title", Some "Fix bug"); ("Labels", Some "bug, urgent");
            ("Assignees", Some "@alice, bob")] []) = [] ++ evs ∧
    creation_posts evs = [m_createIssue; m_addProjectV2ItemById].
Proof.
  destruct (one_item_per_row (builtins := ascii_builtins) (remote := users_service)
              "tok" bare_project false "o/r" (PyStr "R1") 0.25%float 1
              [("Title", Some "Fix bug"); ("Labels", Some "bug, urgent");
               ("Assignees", Some "@alice, bob")] []) as (evs & E & _ & _ & Hfull).
  exists evs. split; [exact E|]. apply Hfull; [discriminate|]. vm_compute. reflexivity.
Defined.

(** The same row, computed: the users, the labels, the issue with the
    identifiers found, the linking, the pause. *)
Example tracked_row_run :
  process_row (builtins := ascii_builtins) (remote := users_service)
    "tok" bare_project false "o/r" (PyStr "R1") 0.25%float 1
    [("Title", Some "Fix bug"); ("Labels", Some "bug, urgent");
     ("Assignees", Some "@alice, bob")] []
  = (Ok tt,
     [Post "tok" q_login (PyDict [("login", PyStr "alice")])
        (ok_data (PyDict [("user", PyDict [("id", PyStr "U1"); ("login", PyStr "alice")])]));
      Post "tok" q_login (PyDict [("login", PyStr "bob")])
        (ok_data (PyDict [("user", PyNone)]));
      Stderr (Warn_user_missing "bob");
      Post "tok" q_labels (labels_variables "o" "r" "urgent") (labels_found [docs_label]);
      Post "tok" q_labels (labels_variables "o" "r" "bug")
        (labels_found [docs_label; bug_label]);
      Stderr (Warn_labels_missing ["urgent"]);
      Post "tok" m_createIssue
        (PyDict [("input", PyDict [("repositoryId", PyStr "R1"); ("title", PyStr "Fix bug");
                                   ("body", PyStr ""); ("labelIds", PyList [PyStr "L1"]);
                                   ("assigneeIds", PyList [PyStr "U1"])])])
        (ok_data (PyDict [("createIssue",
                           PyDict [("issue", PyDict [("id", PyStr "ISSUE1");
                                                     ("number", PyInt 12);
                                                     ("url", PyStr "https://x/12")])])]));
      Stdout (Issue_created (PyInt 12) (PyStr "https://x/12"));
      Post "tok" m_addProjectV2ItemById
        (PyDict [("projectId", PyStr "P1"); ("contentId", PyStr "ISSUE1")])
        (ok_data (PyDict [("addProjectV2ItemById",
                           PyDict [("item", PyDict [("id", PyStr "I2")])])]));
      Stdout (Item_added (PyStr "I2"));
      Sleep 0.25%float]).
Proof. vm_compute. reflexivity. Qed.

(** That row ends with its one pause. *)
Lemma one_pause_per_row_witness :
  ∃ evs evs',
    snd (process_row (builtins := ascii_builtins) (remote := users_service)
           "tok" bare_project false "o/r" (PyStr "R1") 0.25%float 1
           [("Title", Some "Fix bug")] []) = [] ++ evs ∧
    evs = evs' ++ [Sleep 0.25%float] ∧ pauses evs' = [].
Proof.
  destruct (proj1 (one_pause_per_row (builtins := ascii_builtins)
                     (remote := users_service) (tracked_args []) bare_project
                     (PyStr "R1")) 1 [("Title", Some "Fix bug")] [])
    as (evs & E & _ & _ & Hlast).
  destruct Hlast as (evs' & Hevs & Hp); [reflexivity|vm_compute; reflexivity|].
  by exists evs, evs'.
Defined.

(** A field of kind ITERATION is left with the notice; a text is sent as it
    is, in one mutation. *)
Lemma update_field_kinds_witness :
  update_field (builtins := ascii_builtins) (remote := quiet_service)
    "tok" (PyStr "P1") (PyStr "I1") (PyStr "F6") (PyStr "ITERATION") "Sprint 3" PyNone []
    = (Ok tt, [Stderr (Info_type_unsupported (PyStr "ITERATION"))]) ∧
  update_field (builtins := ascii_builtins) (remote := quiet_service)
    "tok" (PyStr "P1") (PyStr "I1") (PyStr "F3") (PyStr "TEXT") "to do" PyNone []
    = (Ok tt,
       [Post "tok" m_updateProjectV2ItemFieldValue
          (PyDict [("input", PyDict [("projectId", PyStr "P1"); ("itemId", PyStr "I1");
                                     ("fieldId", PyStr "F3");
                                     ("value", PyDict [("text", PyStr "to do")])])])
          (ok_data (PyDict []))]).
Proof.
  split.
  - apply (proj2 (proj2 (proj2 (update_field_kinds (builtins := ascii_builtins)
                                  (remote := quiet_service) "tok" (PyStr "P1") (PyStr "I1")
                                  (PyStr "F6") "Sprint 3" PyNone []))));
      discriminate.
  - exact (proj1 (proj1 (proj2 (update_field_kinds (builtins := ascii_builtins)
                                  (remote := quiet_service) "tok" (PyStr "P1") (PyStr "I1")
                                  (PyStr "F3") "to do" PyNone [])))).
Defined.


(** A repository path without a slash fails before any call; "o/r/x" is the
    repository "r/x" of "o". *)
Lemma get_repo_id_contract_witness :
  get_repo_id (remote := tracked_service) "tok" "repo" [] = (Raise ValueError, []) ∧
  snd (get_repo_id (remote := tracked_service) "tok" "o/r/x" [])
    = [Post "tok" q_repository (PyDict [("owner", PyStr "o"); ("name", PyStr "r/x")])
         (ok_data (PyDict [("repository", PyDict [("id", PyStr "R1")])]))].
Proof.
  split.
  - exact (proj1 (get_repo_id_contract (remote := tracked_service) "tok" "repo" [])
             eq_refl).
  - exact (proj1 (proj2 (proj2 (get_repo_id_contract (remote := tracked_service)
                                  "tok" "o/r/x" []))
                    "o" "r/x" eq_refl eq_refl)).
Defined.


(** The same run, computed. *)
Example user_resolution_run :
  get_user_ids (builtins := ascii_builtins) (remote := users_service)
    "tok" ["alice"; " bob "; "alice"] []
  = (Ok [PyStr "U1"],
     [Post "tok" q_login (PyDict [("login", PyStr "alice")])
        (ok_data (PyDict [("user", PyDict [("id", PyStr "U1"); ("login", PyStr "alice")])]));
      Post "tok" q_login (PyDict [("login", PyStr "bob")])
        (ok_data (PyDict [("user", PyNone)]));
      Stderr (Warn_user_missing "bob")]).
Proof. vm_compute. reflexivity. Qed.

(** The board has a field "Points". *)
Lemma field_names_of_board_witness :
  ∃ p, project_of board = Ok p ∧ is_Some (fields p !! "Points").
Proof.
  destruct (project_of board) as [p|] eqn:Hp; [|vm_compute in Hp; discriminate Hp].
  exists p. split; [done|].
  destruct (field_names_of_board board p Hp) as (nodes & Hnodes & Hnames).
  injection Hnodes as <-. apply Hnames. split; [discriminate|].
  exists points_number. split; [|reflexivity].
  do 3 apply list_elem_of_further. apply list_elem_of_here.
Defined.

(** Two rows without a title: two reports, numbered 1 and 2. *)
Lemma rows_in_order_witness :
  process_rows (builtins := ascii_builtins) (remote := draft_service)
    (draft_args []) bare_project PyNone 1
    [[("Title", None); ("Notes", Some "n")]; [("Body", Some "text")]] []
  = (Ok tt, [Stderr (Err_title_missing 1); Stderr (Err_title_missing 2)]).
Proof.
  apply (rows_in_order (builtins := ascii_builtins) (remote := draft_service)
           (draft_args []) bare_project PyNone 1 []).
  by repeat constructor.
Defined.

(** An issue created: the line with its number and address, and its
    identifier. *)
Lemma create_issue_result_witness :
  create_issue (remote := tracked_service) "tok" (PyStr "R1") "Fix bug" "" [] [] []
  = (Ok (PyStr "ISSUE1"),
     [Post "tok" m_createIssue
        (PyDict [("input", PyDict [("repositoryId", PyStr "R1"); ("title", PyStr "Fix bug");
                                   ("body", PyStr ""); ("labelIds", PyNone);
                                   ("assigneeIds", PyNone)])])
        (ok_data (PyDict [("createIssue",
                           PyDict [("issue", PyDict [("id", PyStr "ISSUE1");
                                                     ("number", PyInt 12);
                                                     ("url", PyStr "https://x/12")])])]));
      Stdout (Issue_created (PyInt 12) (PyStr "https://x/12"))]).
Proof.
  exact (proj2 (create_issue_result (remote := tracked_service)
                  "tok" (PyStr "R1") "Fix bug" "" [] [] [])
           _ _ _ _ _ eq_refl eq_refl eq_refl eq_refl eq_refl).
Defined.

(** The names of a row: "bug" and "urgent" for its labels, "alice" and
    "bob" for its assignees. *)
Lemma names_of_cell_witness :
  row_labels (builtins := ascii_builtins)
    [("Title", Some "Fix bug"); ("labels", Some "bug, urgent");
     ("Assignees", Some "@alice, bob")] = ["bug"; "urgent"] ∧
  row_assignees (builtins := ascii_builtins)
    [("Title", Some "Fix bug"); ("labels", Some "bug, urgent");
     ("Assignees", Some "@alice, bob")] = ["alice"; "bob"].
Proof.
  destruct (names_of_cell (builtins := ascii_builtins)
              [("Title", Some "Fix bug"); ("labels", Some "bug, urgent");
               ("Assignees", Some "@alice, bob")])
    as (_ & _ & _ & _ & Hlabels & Hassignees & _).
  split.
  - apply (Hlabels ["bug"; " urgent"]); try done. by repeat constructor.
  - apply (Hassignees ["@alice"; " bob"]); try done. by repeat constructor.
Defined.

End FurtherRuns.
